(** * Retail demand forecasting app: aggregation and trend forecast

    A shallow embedding of the data pipeline of [app1.py]: cleaning of the
    uploaded table ([dropna]), the per-transaction revenue column, the country
    filter, the daily aggregation ([groupby], [resample('D')], [sum]), the
    linear-trend forecast ([LinearRegression], [predict], [clip], [round]) and
    the product ranking ([sort_values], [head]).

    Numbers.  The source computes revenue in binary64 floating point and
    quantities in [int64].  The aggregation is written once, for any column
    type and any routine that sums a group of values, and used with three:
    exact rationals ([Q], compared with [==]), machine floats
    ([PrimFloat.float], summed with compensation as the library does) and
    wrapping integers.  The trend model is stated over [Q]; what is
    proved about it uses the order of values and the shape of the
    computation, which binary64 shares, and no identity that rounding
    breaks.

    Dates.  A timestamp is a count of nanoseconds since the epoch, as in
    [datetime64[ns]]; a calendar date is the ordinal of its day (the midnight
    timestamp of day [d] is [d * ns_per_day]). *)

From Stdlib Require Import ZArith QArith Qround Lqa Lia.
From Stdlib Require Import List Bool String Permutation Sorted Orders Mergesort.
From Stdlib Require Import FinFun Setoid RelationClasses.
From Stdlib Require PrimFloat.
Import ListNotations.

Local Open Scope Z_scope.

(** ** Exceptions and results *)

Inductive exn : Type :=
| ValueError
| IndexError.

Inductive result (A : Type) : Type :=
| Ok (a : A)
| Raise (e : exn).

Arguments Ok {A} a.
Arguments Raise {A} e.

Definition bind {A B : Type} (r : result A) (k : A -> result B) : result B :=
  match r with
  | Ok a => k a
  | Raise e => Raise e
  end.

Notation "x <- r ;; k" := (bind r (fun x => k))
  (at level 61, r at next level, right associativity).

(** ** The uploaded table *)

(** One line of the CSV file as [read_csv] delivers it: a cell is [None] when
    it is NaN.  [raw_other] holds the cells of whatever further columns the
    file has (invoice number, customer id, ...). *)
Record RawRow : Type := mkRawRow {
  raw_InvoiceDate : option Z;
  raw_Quantity : option Z;
  raw_UnitPrice : option Q;
  raw_Country : option string;
  raw_Description : option string;
  raw_other : list (option string)
}.

(** A line that survived [dropna], with [InvoiceDate] already converted by
    [to_datetime]. *)
Record Row : Type := mkRow {
  InvoiceDate : Z;
  Quantity : Z;
  UnitPrice : Q;
  Country : string;
  Description : string
}.

Definition notna {A : Type} (c : option A) : bool :=
  match c with Some _ => true | None => false end.

(** [df.dropna(inplace=True)] has no [subset]: a line is kept only when no
    cell of it, in any column, is NaN. *)
Definition row_of_raw (r : RawRow) : option Row :=
  match raw_InvoiceDate r, raw_Quantity r, raw_UnitPrice r,
        raw_Country r, raw_Description r with
  | Some t, Some q, Some p, Some c, Some d =>
      if forallb notna (raw_other r) then Some (mkRow t q p c d) else None
  | _, _, _, _, _ => None
  end.

Fixpoint dropna (df : list RawRow) : list Row :=
  match df with
  | [] => []
  | r :: df' =>
      match row_of_raw r with
      | Some row => row :: dropna df'
      | None => dropna df'
      end
  end.

(** [df['TotalSale'] = df['Quantity'] * df['UnitPrice']] *)
Definition TotalSale (r : Row) : Q := inject_Z (Quantity r) * UnitPrice r.

(** [df = df[df['Country'] == country]] *)
Definition select_country (country : string) (df : list Row) : list Row :=
  filter (fun r => String.eqb (Country r) country) df.

(** ** Calendar *)

Definition ns_per_day : Z := 86400 * 1000000000.

(** The calendar day of a timestamp (the bin [resample('D')] puts it in). *)
Definition floor_day (t : Z) : Z := t / ns_per_day.

(** [pd.date_range(start, periods=n)] at daily frequency, and the daily bins
    of a resampler: [n] consecutive days from [start]. *)
Definition day_range (start : Z) (n : nat) : list Z :=
  map (fun k => start + Z.of_nat k) (seq 0 n).

Definition Zmin_list (x : Z) (l : list Z) : Z := fold_right Z.min x l.
Definition Zmax_list (x : Z) (l : list Z) : Z := fold_right Z.max x l.

(** ** Sorting of group keys *)

Module ZOrder <: TotalLeBool.
Definition t := Z.
Definition leb := Z.leb.
Definition leb_total : forall x y, leb x y = true \/ leb y x = true :=
  fun x y =>
    match Z.leb_spec x y with
    | BoolSpecT _ H => or_introl (proj2 (Z.leb_le x y) H)
    | BoolSpecF _ H => or_intror (proj2 (Z.leb_le y x) (Z.lt_le_incl _ _ H))
    end.
End ZOrder.
Module ZSort := Sort ZOrder.

Module StringOrder <: TotalLeBool.
Definition t := string.
Definition leb := String.leb.
Definition leb_total : forall x y, leb x y = true \/ leb y x = true :=
  String.leb_total.
End StringOrder.
Module StringSort := Sort StringOrder.

(** ** Aggregation: [groupby(...).sum()] and [resample('D').sum()] *)

(** A sum that accumulates from the left, from the zero of the column:
    [((0 + x1) + x2) + ...]. *)
Definition vsum {V : Type} (vzero : V) (vadd : V -> V -> V) (l : list V) : V :=
  fold_left vadd l vzero.

Section Aggregation.
(** The type of the aggregated column and the routine that sums a group
    of its values, given in row order. *)
Variable V : Type.
Variable col_sum : list V -> V.

Section GroupBy.
Variable K : Type.
Variable K_dec : forall x y : K, {x = y} + {x <> y}.
Variable K_sort : list K -> list K.

(** The values of the lines whose key is [k], in line order. *)
Definition group (k : K) (kv : list (K * V)) : list V :=
  map snd (filter (fun p => if K_dec (fst p) k then true else false) kv).

(** [groupby(key)[col].sum()]: one entry per distinct key, keys in
    sorted order ([sort=True] is the default), the entry being the sum
    of the group. *)
Definition groupby_sum (kv : list (K * V)) : list (K * V) :=
  map (fun k => (k, col_sum (group k kv))) (K_sort (nodup K_dec (map fst kv))).
End GroupBy.

(** The values of the entries whose timestamp falls on day [d]. *)
Definition on_day (d : Z) (s : list (Z * V)) : list V :=
  map snd (filter (fun p => floor_day (fst p) =? d) s).

(** [resample('D').sum()] on a series indexed by timestamp: the daily bins
    run from the day of the smallest timestamp to the day of the largest,
    and an empty bin holds the sum of no value (so the [fillna(0)] that
    follows has nothing to fill).  An empty series stays empty. *)
Definition resample_D_sum (s : list (Z * V)) : list (Z * V) :=
  match map fst s with
  | [] => []
  | t :: ts =>
      let first := floor_day (Zmin_list t ts) in
      let last := floor_day (Zmax_list t ts) in
      map (fun d => (d, col_sum (on_day d s)))
          (day_range first (Z.to_nat (last - first + 1)))
  end.

(** [df.groupby('InvoiceDate')[col].sum().resample('D').sum().fillna(0)
      .reset_index()] *)
Definition daily (col : Row -> V) (df : list Row) : list (Z * V) :=
  resample_D_sum
    (groupby_sum Z Z.eq_dec ZSort.sort
                 (map (fun r => (InvoiceDate r, col r)) df)).
End Aggregation.

Arguments group {V K} K_dec k kv.
Arguments groupby_sum {V} col_sum {K} K_dec K_sort kv.
Arguments on_day {V} d s.
Arguments resample_D_sum {V} col_sum s.
Arguments daily {V} col_sum col df.

(** The sum of a column of exact values. *)
Definition Qsum : list Q -> Q := vsum 0%Q Qplus.

(** Addition of the [int64] column of quantities: it wraps around. *)
Definition wrap_int64 (z : Z) : Z := (z + 2 ^ 63) mod 2 ^ 64 - 2 ^ 63.
Definition add_int64 (a b : Z) : Z := wrap_int64 (a + b).

(** The sum of an [int64] column. *)
Definition sum_int64 : list Z -> Z := vsum 0 add_int64.

(** [daily_sales]: columns [date], [daily_total_sales]. *)
Definition daily_sales (df : list Row) : list (Z * Q) :=
  daily Qsum TotalSale df.

(** [daily_units]: columns [date], [daily_units_sold]. *)
Definition daily_units (df : list Row) : list (Z * Z) :=
  daily sum_int64 Quantity df.

(** The earliest and the latest transaction date of a set of lines. *)
Definition min_date (df : list Row) : option Z :=
  match map (fun r => floor_day (InvoiceDate r)) df with
  | [] => None
  | d :: ds => Some (Zmin_list d ds)
  end.

Definition max_date (df : list Row) : option Z :=
  match map (fun r => floor_day (InvoiceDate r)) df with
  | [] => None
  | d :: ds => Some (Zmax_list d ds)
  end.

(** ** Trend model *)

Local Open Scope Q_scope.

(** [np.arange(a, b)] on integers: [a, a+1, ..., b-1], empty when [b <= a]. *)
Definition arange (a b : Z) : list Z :=
  map (fun k => (a + Z.of_nat k)%Z) (seq 0 (Z.to_nat (b - a))).

(** A fitted [sklearn.linear_model.LinearRegression] with one feature. *)
Record LinearRegression : Type := mkModel {
  coef_ : Q;
  intercept_ : Q
}.

Definition mean (l : list Q) : Q := Qsum l / inject_Z (Z.of_nat (List.length l)).

(** Centred sums of squares and of cross products. *)
Definition sxx (X : list Q) : Q :=
  Qsum (map (fun x => (x - mean X) * (x - mean X)) X).

Definition sxy (X y : list Q) : Q :=
  Qsum (map (fun p => (fst p - mean X) * (snd p - mean y)) (combine X y)).

(** [LinearRegression().fit(X, y)] with the default [fit_intercept=True] and
    a single column [X].  The library rejects an input without samples
    ([ValueError]); otherwise it centres both columns, solves the centred
    least-squares problem (the minimum-norm solution, which is the zero
    slope when the centred column is all zero) and recovers the intercept
    from the means. *)
Definition fit (X y : list Q) : result LinearRegression :=
  match X with
  | [] => Raise ValueError
  | _ :: _ =>
      let coef := if Qeq_bool (sxx X) 0 then 0 else sxy X y / sxx X in
      Ok (mkModel coef (mean y - mean X * coef))
  end.

(** [model.predict(X)]: also rejects an input without samples. *)
Definition predict (model : LinearRegression) (X : list Q) : result (list Q) :=
  match X with
  | [] => Raise ValueError
  | _ :: _ => Ok (map (fun x => x * coef_ model + intercept_ model) X)
  end.

(** [.clip(lower=...)] on one value. *)
Definition clip_lower (lower v : Q) : Q :=
  match v ?= lower with
  | Lt => lower
  | _ => v
  end.

(** [np.rint]: the nearest integer, a tie going to the even neighbour. *)
Definition rint (x : Q) : Z :=
  let f := Qfloor x in
  match Qcompare (x - inject_Z f) (1 # 2) with
  | Lt => f
  | Gt => (f + 1)%Z
  | Eq => if Z.even f then f else (f + 1)%Z
  end.

(** [.round(decimals)] on one value: scale, [rint], scale back. *)
Definition round (decimals : nat) (x : Q) : Q :=
  inject_Z (rint (x * inject_Z (10 ^ Z.of_nat decimals)))
  / inject_Z (10 ^ Z.of_nat decimals).

(** [series.iloc[-1]] *)
Definition iloc_last {A : Type} (l : list A) : result A :=
  match rev l with
  | [] => Raise IndexError
  | x :: _ => Ok x
  end.

(** [pd.date_range(start=..., periods=n)]: a negative [periods] is refused. *)
Definition date_range (start periods : Z) : result (list Z) :=
  if (periods <? 0)%Z then Raise ValueError
  else Ok (day_range start (Z.to_nat periods)).

(** What [st.slider(label, min_value, max_value, value)] can return: the
    initial [value], or a position the user moved the handle to, which the
    widget keeps between [min_value] and [max_value]. *)
Inductive slider (min_value max_value value : Z) : Z -> Prop :=
| slider_initial : slider min_value max_value value value
| slider_moved (v : Z) :
    (min_value <= v <= max_value)%Z -> slider min_value max_value value v.

(** The forecasting part of the script, from [daily_sales['day_number']]
    to [forecast_df], as a function of the daily series and of the number
    of days read from the slider. *)
Definition forecast (daily_sales : list (Z * Q)) (forecast_days : Z)
  : result (list (Z * Q)) :=
  let n := Z.of_nat (List.length daily_sales) in
  let X := map inject_Z (arange 0 n) in
  let y := map snd daily_sales in
  model <- fit X y ;;
  let future_day_numbers := map inject_Z (arange n (n + forecast_days)) in
  forecasted_sales <- predict model future_day_numbers ;;
  last_date <- iloc_last (map fst daily_sales) ;;
  future_dates <- date_range (last_date + 1) forecast_days ;;
  Ok (combine future_dates
        (map (fun v => round 2 (clip_lower 0 v)) forecasted_sales)).

(** The regressor column of a series: [np.arange(len(daily_sales))]. *)
Definition day_number (y : list Q) : list Q :=
  map inject_Z (arange 0 (Z.of_nat (List.length y))).

(** The model [forecast] fits to a series of daily totals, and the value
    of a model's line at day index [i] before clipping and rounding. *)
Definition fitted (y : list Q) : result LinearRegression :=
  fit (day_number y) y.

Definition predict_at (model : LinearRegression) (i : Z) : Q :=
  inject_Z i * coef_ model + intercept_ model.

(** Residual sum of squares of the line [a * x + b] on the sample
    [(X, y)]. *)
Definition sse (a b : Q) (X y : list Q) : Q :=
  Qsum (map (fun p => (snd p - (a * fst p + b)) * (snd p - (a * fst p + b)))
            (combine X y)).

(** The script from the upload to the forecast table. *)
Definition run (upload : list RawRow) (country : string) (forecast_days : Z)
  : result (list (Z * Q)) :=
  forecast (daily_sales (select_country country (dropna upload))) forecast_days.

(** ** Product ranking *)

(** [df['TotalSales'] = df['Quantity'] * df['UnitPrice']] *)
Definition TotalSales (r : Row) : Q := inject_Z (Quantity r) * UnitPrice r.

Section SortValues.
Variable K : Type.

Fixpoint insert_asc (x : K * Q) (l : list (K * Q)) : list (K * Q) :=
  match l with
  | [] => [x]
  | y :: l' =>
      if Qle_bool (snd x) (snd y) then x :: l else y :: insert_asc x l'
  end.

(** Ascending sort by value that keeps equal values in their order. *)
Definition sort_asc (l : list (K * Q)) : list (K * Q) :=
  fold_right insert_asc [] l.

(** [sort_values(ascending=False)]: the library reverses the series,
    sorts it ascending and reverses the outcome.  The ascending sort is
    taken to keep equal values in their order (the default
    [kind='quicksort'] does on short inputs, and promises nothing on long
    ones); the ranking theorem does not depend on the order of equal
    values. *)
Definition sort_values_desc (l : list (K * Q)) : list (K * Q) :=
  rev (sort_asc (rev l)).
End SortValues.

(** The orders a sort by value establishes. *)
Definition by_value_asc {K : Type} (a b : K * Q) : Prop := snd a <= snd b.
Definition by_value_desc {K : Type} (a b : K * Q) : Prop := snd b <= snd a.

Arguments insert_asc {K} x l.
Arguments sort_asc {K} l.
Arguments sort_values_desc {K} l.

(** [df.groupby('Description')['TotalSales'].sum()
      .sort_values(ascending=False)] *)
Definition product_sales (df : list Row) : list (string * Q) :=
  sort_values_desc
    (groupby_sum Qsum string_dec StringSort.sort
                 (map (fun r => (Description r, TotalSales r)) df)).

(** [product_sales.head(n)] *)
Definition top_products (n : nat) (df : list Row) : list (string * Q) :=
  firstn n (product_sales df).

(** The number of distinct product descriptions. *)
Definition distinct_descriptions (df : list Row) : nat :=
  List.length (nodup string_dec (map Description df)).

(** A list of values that is strictly decreasing, resp. never increasing. *)
Fixpoint strictly_descending (l : list Q) : Prop :=
  match l with
  | [] => True
  | x :: l' =>
      match l' with
      | [] => True
      | y :: _ => y < x /\ strictly_descending l'
      end
  end.

Fixpoint descending (l : list Q) : Prop :=
  match l with
  | [] => True
  | x :: l' =>
      match l' with
      | [] => True
      | y :: _ => y <= x /\ descending l'
      end
  end.

(** ** Country selector *)

(** [sorted(df['Country'].unique())]: each country of the table once, in
    sorted order. *)
Definition countries (df : list Row) : list string :=
  StringSort.sort (nodup string_dec (map Country df)).


(** ** The revenue column in binary64 *)

(** The group keys of [groupby('InvoiceDate')]: the distinct timestamps of
    the table in ascending order. *)
Definition timestamps (df : list Row) : list Z :=
  ZSort.sort (nodup Z.eq_dec (map InvoiceDate df)).

(** An integer as a binary64 value (exact below [2 ^ 53]), and a decimal
    cell as the binary64 value nearest to it (numerator and denominator
    below [2 ^ 53]: one correctly rounded division). *)
Fixpoint pos2F (p : positive) : PrimFloat.float :=
  match p with
  | xH => PrimFloat.one
  | xO p' => PrimFloat.mul PrimFloat.two (pos2F p')
  | xI p' => PrimFloat.add (PrimFloat.mul PrimFloat.two (pos2F p')) PrimFloat.one
  end.

Definition Z2F (z : Z) : PrimFloat.float :=
  match z with
  | Z0 => PrimFloat.zero
  | Zpos p => pos2F p
  | Zneg p => PrimFloat.opp (pos2F p)
  end.

Definition Q2F (q : Q) : PrimFloat.float :=
  PrimFloat.div (Z2F (Qnum q)) (Z2F (Zpos (Qden q))).

(** [df['Quantity'] * df['UnitPrice']] as the machine computes it. *)
Definition TotalSale64 (r : Row) : PrimFloat.float :=
  PrimFloat.mul (Z2F (Quantity r)) (Q2F (UnitPrice r)).

(** The sum of a group of binary64 values as [groupby(...).sum()] and
    [resample('D').sum()] compute it: compensated (Kahan) summation in row
    order.  The running compensation is what the last addition lost; it is
    taken off the next value, and reset when it is not a number. *)
Definition kahan_add (acc : PrimFloat.float * PrimFloat.float)
    (val : PrimFloat.float) : PrimFloat.float * PrimFloat.float :=
  let (sumx, compensation) := acc in
  let y := PrimFloat.sub val compensation in
  let t := PrimFloat.add sumx y in
  let c := PrimFloat.sub (PrimFloat.sub t sumx) y in
  (t, if PrimFloat.eqb c c then c else PrimFloat.zero).

Definition sum64 (l : list PrimFloat.float) : PrimFloat.float :=
  fst (fold_left kahan_add l (PrimFloat.zero, PrimFloat.zero)).

(** [daily_sales] with binary64 sums. *)
Definition daily_sales64 (df : list Row) : list (Z * PrimFloat.float) :=
  daily sum64 TotalSale64 df.

(** [daily_sales['daily_total_sales'].sum()] with binary64 sums: a column
    of fewer than eight values is added from left to right. *)
Definition total_sales64 (daily_sales : list (Z * PrimFloat.float))
  : PrimFloat.float :=
  vsum PrimFloat.zero PrimFloat.add (map snd daily_sales).

(** ** The script on what the selector returned *)



(** * Facts *)

(** ** Calendar and extrema *)

Local Open Scope Z_scope.

Lemma ns_per_day_pos : 0 < ns_per_day.
Proof. reflexivity. Qed.

Lemma floor_day_mono : forall a b, a <= b -> floor_day a <= floor_day b.
Proof.
  intros a b Hab. unfold floor_day.
  apply Z.div_le_mono; [exact ns_per_day_pos | exact Hab].
Qed.

Lemma day_range_length : forall start n, List.length (day_range start n) = n.
Proof.
  intros start n. unfold day_range. now rewrite length_map, length_seq.
Qed.

Lemma day_range_In : forall start n d,
  In d (day_range start n) <-> start <= d < start + Z.of_nat n.
Proof.
  intros start n d. unfold day_range. rewrite in_map_iff. split.
  - intros [k [Hk Hin]]. apply in_seq in Hin. lia.
  - intros Hd. exists (Z.to_nat (d - start)). split; [lia |].
    apply in_seq. lia.
Qed.

Lemma day_range_NoDup : forall start n, NoDup (day_range start n).
Proof.
  intros start n. unfold day_range.
  apply Injective_map_NoDup; [| apply seq_NoDup].
  intros i j Hij. lia.
Qed.

Lemma Zmin_list_le : forall x l y, In y (x :: l) -> Zmin_list x l <= y.
Proof.
  unfold Zmin_list. intros x l. induction l as [| z l IH]; simpl; intros y Hy.
  - destruct Hy as [-> | []]. lia.
  - destruct Hy as [-> | [-> | Hy]].
    + specialize (IH y (or_introl eq_refl)). lia.
    + lia.
    + specialize (IH y (or_intror Hy)). lia.
Qed.

Lemma Zmin_list_In : forall x l, In (Zmin_list x l) (x :: l).
Proof.
  intros x l. induction l as [| z l IH].
  - now left.
  - change (Zmin_list x (z :: l)) with (Z.min z (Zmin_list x l)).
    destruct (Z.min_spec z (Zmin_list x l)) as [[_ ->] | [_ ->]].
    + right. now left.
    + destruct IH as [IH | IH]; [now left | right; now right].
Qed.

Lemma Zmax_list_ge : forall x l y, In y (x :: l) -> y <= Zmax_list x l.
Proof.
  unfold Zmax_list. intros x l. induction l as [| z l IH]; simpl; intros y Hy.
  - destruct Hy as [-> | []]. lia.
  - destruct Hy as [-> | [-> | Hy]].
    + specialize (IH y (or_introl eq_refl)). lia.
    + lia.
    + specialize (IH y (or_intror Hy)). lia.
Qed.

Lemma Zmax_list_In : forall x l, In (Zmax_list x l) (x :: l).
Proof.
  intros x l. induction l as [| z l IH].
  - now left.
  - change (Zmax_list x (z :: l)) with (Z.max z (Zmax_list x l)).
    destruct (Z.max_spec z (Zmax_list x l)) as [[_ ->] | [_ ->]].
    + destruct IH as [IH | IH]; [now left | right; now right].
    + right. now left.
Qed.

(** The extrema of a list depend on its elements only, and commute with a
    monotone map. *)
Lemma Zmin_list_unique : forall x l m,
  In m (x :: l) -> (forall y, In y (x :: l) -> m <= y) -> Zmin_list x l = m.
Proof.
  intros x l m Hin Hle.
  pose proof (Zmin_list_le x l m Hin).
  pose proof (Hle _ (Zmin_list_In x l)). lia.
Qed.

Lemma Zmax_list_unique : forall x l m,
  In m (x :: l) -> (forall y, In y (x :: l) -> y <= m) -> Zmax_list x l = m.
Proof.
  intros x l m Hin Hle.
  pose proof (Zmax_list_ge x l m Hin).
  pose proof (Hle _ (Zmax_list_In x l)). lia.
Qed.

Lemma floor_day_extrema : forall t ts t' ts',
  (forall y, In y (t :: ts) <-> In y (t' :: ts')) ->
  floor_day (Zmin_list t ts)
  = Zmin_list (floor_day t') (map floor_day ts')
  /\ floor_day (Zmax_list t ts)
     = Zmax_list (floor_day t') (map floor_day ts').
Proof.
  intros t ts t' ts' Hsame.
  change (floor_day t' :: map floor_day ts') with (map floor_day (t' :: ts')).
  split; symmetry.
  - apply Zmin_list_unique.
    + change (In (floor_day (Zmin_list t ts)) (map floor_day (t' :: ts'))).
      apply in_map, Hsame, Zmin_list_In.
    + intros y Hy.
      change (In y (map floor_day (t' :: ts'))) in Hy.
      apply in_map_iff in Hy. destruct Hy as [u [<- Hu]].
      apply floor_day_mono, Zmin_list_le, Hsame, Hu.
  - apply Zmax_list_unique.
    + change (In (floor_day (Zmax_list t ts)) (map floor_day (t' :: ts'))).
      apply in_map, Hsame, Zmax_list_In.
    + intros y Hy.
      change (In y (map floor_day (t' :: ts'))) in Hy.
      apply in_map_iff in Hy. destruct Hy as [u [<- Hu]].
      apply floor_day_mono, Zmax_list_ge, Hsame, Hu.
Qed.

(** ** The daily series *)

Lemma groupby_sum_keys : forall (V K : Type) (col_sum : list V -> V)
    (K_dec : forall x y : K, {x = y} + {x <> y}) (K_sort : list K -> list K)
    (kv : list (K * V)),
  map fst (groupby_sum col_sum K_dec K_sort kv)
  = K_sort (nodup K_dec (map fst kv)).
Proof.
  intros. unfold groupby_sum. rewrite map_map. simpl. apply map_id.
Qed.

Lemma sorted_keys_In : forall (l : list Z) (t : Z),
  In t (ZSort.sort (nodup Z.eq_dec l)) <-> In t l.
Proof.
  intros l t. split.
  - intros Hin. apply (nodup_In Z.eq_dec).
    revert Hin. apply Permutation_in. symmetry. apply ZSort.Permuted_sort.
  - intros Hin. apply (nodup_In Z.eq_dec) in Hin.
    revert Hin. apply Permutation_in. apply ZSort.Permuted_sort.
Qed.

Lemma date_columns : forall (V : Type) (col : Row -> V) (df : list Row),
  map fst (map (fun r => (InvoiceDate r, col r)) df) = map InvoiceDate df.
Proof. intros. rewrite map_map. reflexivity. Qed.

(** The dates of the daily series: every day from the earliest to the
    latest transaction date, in order. *)
Lemma daily_dates : forall (V : Type) (col_sum : list V -> V)
    (col : Row -> V) (df : list Row) (lo hi : Z),
  min_date df = Some lo -> max_date df = Some hi ->
  map fst (daily col_sum col df) = day_range lo (Z.to_nat (hi - lo + 1)).
Proof.
  intros V col_sum col df lo hi Hlo Hhi.
  unfold daily, resample_D_sum.
  rewrite groupby_sum_keys, date_columns.
  destruct df as [| r df]; [discriminate |].
  destruct (ZSort.sort (nodup Z.eq_dec (map InvoiceDate (r :: df))))
    as [| t ts] eqn:Hkeys.
  - exfalso.
    assert (Hin : In (InvoiceDate r) []).
    { rewrite <- Hkeys. apply sorted_keys_In. now left. }
    destruct Hin.
  - destruct (floor_day_extrema t ts (InvoiceDate r) (map InvoiceDate df))
      as [Hmin Hmax].
    { intros y. rewrite <- Hkeys. apply sorted_keys_In. }
    unfold min_date in Hlo. unfold max_date in Hhi. simpl in Hlo, Hhi.
    rewrite map_map in Hmin, Hmax.
    injection Hlo as <-. injection Hhi as <-.
    rewrite Hmin, Hmax, map_map. simpl. apply map_id.
Qed.

Lemma min_max_date_some : forall df : list Row,
  df <> [] ->
  exists lo hi, min_date df = Some lo /\ max_date df = Some hi /\
    (forall r, In r df -> lo <= floor_day (InvoiceDate r) <= hi).
Proof.
  intros [| r df] Hne; [congruence |].
  unfold min_date, max_date. simpl. eexists. eexists.
  split; [reflexivity | split; [reflexivity |]].
  intros r' Hr'.
  assert (Hin : In (floor_day (InvoiceDate r'))
                   (floor_day (InvoiceDate r)
                    :: map (fun r => floor_day (InvoiceDate r)) df)).
  { change (In (floor_day (InvoiceDate r'))
               (map (fun r => floor_day (InvoiceDate r)) (r :: df))).
    now apply (in_map (fun r => floor_day (InvoiceDate r))). }
  split; [now apply Zmin_list_le | now apply Zmax_list_ge].
Qed.

(** The entry of a day is the sum of the groups that fall on that day. *)
Lemma daily_entry : forall (V : Type) (col_sum : list V -> V)
    (col : Row -> V) (df : list Row) (d : Z) (v : V),
  In (d, v) (daily col_sum col df) ->
  v = col_sum
        (on_day d (groupby_sum col_sum Z.eq_dec ZSort.sort
                               (map (fun r => (InvoiceDate r, col r)) df))).
Proof.
  intros V col_sum col df d v. unfold daily, resample_D_sum.
  destruct (map fst _) as [| t ts]; [intros [] |].
  intros Hin. apply in_map_iff in Hin. destruct Hin as [d' [Heq _]].
  now inversion Heq.
Qed.

Lemma on_day_nil : forall (V : Type) (d : Z) (s : list (Z * V)),
  (forall p, In p s -> floor_day (fst p) <> d) -> on_day d s = [].
Proof.
  intros V d s Hs. unfold on_day.
  induction s as [| p s IH]; simpl; [reflexivity |].
  destruct (floor_day (fst p) =? d) eqn:Hday.
  - apply Z.eqb_eq in Hday. exfalso. now apply (Hs p (or_introl eq_refl)).
  - apply IH. intros q Hq. apply Hs. now right.
Qed.

(** A day without transactions gets the sum of no value. *)
Lemma daily_empty_day : forall (V : Type) (col_sum : list V -> V)
    (col : Row -> V) (df : list Row) (d : Z) (v : V),
  In (d, v) (daily col_sum col df) ->
  (forall r, In r df -> floor_day (InvoiceDate r) <> d) ->
  v = col_sum [].
Proof.
  intros V col_sum col df d v Hin Hnone.
  rewrite (daily_entry _ _ _ _ _ _ Hin), on_day_nil; [reflexivity |].
  intros p Hp.
  assert (Hkey : In (fst p) (map InvoiceDate df)).
  { apply sorted_keys_In. rewrite <- (date_columns V col).
    rewrite <- groupby_sum_keys with (col_sum := col_sum).
    now apply in_map. }
  apply in_map_iff in Hkey. destruct Hkey as [r [Hr Hrin]].
  rewrite <- Hr. now apply Hnone.
Qed.

(** ** Zero-fill completeness *)

(** C1.  For a country-filtered record set with at least one record, the
    daily revenue series and the daily units series have exactly
    [(max_date - min_date).days + 1] points: one for each calendar day from
    the earliest to the latest transaction date inclusive, in order and
    without a repeated date; a day on which the country has no transaction
    has revenue 0 and units 0. *)
Theorem daily_series_zero_fill : forall (country : string) (cleaned : list Row),
  select_country country cleaned <> [] ->
  exists lo hi : Z,
    min_date (select_country country cleaned) = Some lo
    /\ max_date (select_country country cleaned) = Some hi
    /\ Z.of_nat (List.length (daily_sales (select_country country cleaned)))
       = hi - lo + 1
    /\ map fst (daily_sales (select_country country cleaned))
       = day_range lo (Z.to_nat (hi - lo + 1))
    /\ map fst (daily_units (select_country country cleaned))
       = day_range lo (Z.to_nat (hi - lo + 1))
    /\ NoDup (map fst (daily_sales (select_country country cleaned)))
    /\ (forall d, In d (map fst (daily_sales (select_country country cleaned)))
                  <-> lo <= d <= hi)
    /\ (forall d revenue units,
          In (d, revenue) (daily_sales (select_country country cleaned)) ->
          In (d, units) (daily_units (select_country country cleaned)) ->
          (forall r, In r (select_country country cleaned) ->
                     floor_day (InvoiceDate r) <> d) ->
          revenue = 0%Q /\ units = 0).
Proof.
  intros country cleaned Hne.
  set (df := select_country country cleaned) in *.
  destruct (min_max_date_some df Hne) as [lo [hi [Hlo [Hhi Hrange]]]].
  assert (Hle : lo <= hi).
  { destruct df as [| r df']; [congruence |].
    specialize (Hrange r (or_introl eq_refl)). lia. }
  pose proof (daily_dates Q Qsum TotalSale df lo hi Hlo Hhi) as Hsales.
  pose proof (daily_dates Z sum_int64 Quantity df lo hi Hlo Hhi) as Hunits.
  fold (daily_sales df) in Hsales. fold (daily_units df) in Hunits.
  exists lo, hi. repeat split; try assumption.
  - rewrite <- (length_map fst), Hsales, day_range_length. lia.
  - rewrite Hsales. apply day_range_NoDup.
  - rewrite Hsales in H. apply day_range_In in H. lia.
  - rewrite Hsales in H. apply day_range_In in H. lia.
  - intros [H1 H2]. rewrite Hsales. apply day_range_In. lia.
  - apply (daily_empty_day Q Qsum TotalSale df d revenue); assumption.
  - apply (daily_empty_day Z sum_int64 Quantity df d units); assumption.
Qed.

Lemma daily_series_zero_fill_witness :
  exists lo hi : Z,
    min_date (select_country "UK" [mkRow (19723 * ns_per_day + 36900000000000) 1 100 "UK" "mug";
                                   mkRow (19724 * ns_per_day) 5 7 "France" "pen";
                                   mkRow (19725 * ns_per_day) 3 100 "UK" "cup"]) = Some lo
    /\ max_date (select_country "UK" [mkRow (19723 * ns_per_day + 36900000000000) 1 100 "UK" "mug";
                                   mkRow (19724 * ns_per_day) 5 7 "France" "pen";
                                   mkRow (19725 * ns_per_day) 3 100 "UK" "cup"]) = Some hi
    /\ hi - lo + 1 = 3.
Proof.
  destruct (daily_series_zero_fill "UK"
              [mkRow (19723 * ns_per_day + 36900000000000) 1 100 "UK" "mug";
               mkRow (19724 * ns_per_day) 5 7 "France" "pen";
               mkRow (19725 * ns_per_day) 3 100 "UK" "cup"])
    as [lo [hi [Hlo [Hhi [Hlen _]]]]].
  - vm_compute. discriminate.
  - exists lo, hi. split; [exact Hlo | split; [exact Hhi |]].
    rewrite <- Hlen. vm_compute. reflexivity.
Defined.

(** ** Scenario A: a gap day *)

Example scenario_A :
  map fst (daily_sales [mkRow (19723 * ns_per_day) 1 100 "UK" "mug";
                        mkRow (19725 * ns_per_day) 3 100 "UK" "cup"])
  = [19723; 19724; 19725]
  /\ In (19724, 0%Q)
        (daily_sales [mkRow (19723 * ns_per_day) 1 100 "UK" "mug";
                      mkRow (19725 * ns_per_day) 3 100 "UK" "cup"])
  /\ (Qsum (map snd (daily_sales
        [mkRow (19723 * ns_per_day) 1 100 "UK" "mug";
         mkRow (19725 * ns_per_day) 3 100 "UK" "cup"])) == 400)%Q.
Proof.
  split; [reflexivity | split; [| reflexivity]].
  right. left. reflexivity.
Qed.

(** ** Shape of the forecast *)

Local Open Scope Q_scope.

Lemma arange_shift : forall (n h : Z),
  arange n (n + h) = map (fun k => (n + Z.of_nat k)%Z) (seq 0 (Z.to_nat h)).
Proof.
  intros n h. unfold arange. now replace (n + h - n)%Z with h by lia.
Qed.

Lemma iloc_last_last : forall (A : Type) (x d : A) (l : list A),
  iloc_last (x :: l) = Ok (last (x :: l) d).
Proof.
  intros A x d l. unfold iloc_last.
  destruct (rev (x :: l)) as [| y r] eqn:Hrev.
  - apply (f_equal (@List.length A)) in Hrev.
    rewrite length_rev in Hrev. discriminate.
  - apply (f_equal (@rev A)) in Hrev. rewrite rev_involutive in Hrev.
    rewrite Hrev. simpl rev. now rewrite last_last.
Qed.

Lemma fitted_some : forall (x : Q) (y : list Q),
  fitted (x :: y)
  = Ok (mkModel
          (if Qeq_bool (sxx (day_number (x :: y))) 0 then 0
           else sxy (day_number (x :: y)) (x :: y) / sxx (day_number (x :: y)))
          (mean (x :: y)
           - mean (day_number (x :: y))
             * (if Qeq_bool (sxx (day_number (x :: y))) 0 then 0
                else sxy (day_number (x :: y)) (x :: y)
                     / sxx (day_number (x :: y))))).
Proof.
  intros x y. unfold fitted, fit.
  destruct (day_number (x :: y)) as [| i X] eqn:HX; [| reflexivity].
  apply (f_equal (@List.length Q)) in HX.
  unfold day_number, arange in HX.
  rewrite !length_map, length_seq in HX. simpl in HX. lia.
Qed.

Lemma combine_map_map : forall (A B C : Type) (f : A -> B) (g : A -> C) (l : list A),
  combine (map f l) (map g l) = map (fun a => (f a, g a)) l.
Proof.
  intros A B C f g l. induction l as [| a l IH]; simpl; [reflexivity |].
  now rewrite IH.
Qed.

Lemma predict_nonempty : forall (model : LinearRegression) (X : list Q),
  X <> [] ->
  predict model X = Ok (map (fun x => x * coef_ model + intercept_ model) X).
Proof.
  intros model [| x X] HX; [congruence | reflexivity].
Qed.

(** On a series with at least one point and for at least one day, the
    forecast is computed, point [k] being dated [k + 1] days after the last
    date of the series and valued at the clipped and rounded prediction for
    day index [len + k]. *)
Lemma forecast_shape : forall (p : Z * Q) (s : list (Z * Q)) (forecast_days : Z),
  (1 <= forecast_days)%Z ->
  exists model : LinearRegression,
    fitted (map snd (p :: s)) = Ok model
    /\ forecast (p :: s) forecast_days
       = Ok (map (fun k =>
                    ((last (map fst (p :: s)) 0%Z + 1 + Z.of_nat k)%Z,
                     round 2 (clip_lower 0
                       (predict_at model
                          (Z.of_nat (List.length (p :: s)) + Z.of_nat k)))))
                 (seq 0 (Z.to_nat forecast_days))).
Proof.
  intros p s h Hh.
  pose proof (fitted_some (snd p) (map snd s)) as Hfit.
  change (snd p :: map snd s) with (map snd (p :: s)) in Hfit.
  match type of Hfit with _ = Ok ?m => set (model := m) in Hfit end.
  exists model. split; [exact Hfit |].
  unfold fitted, day_number in Hfit. rewrite length_map in Hfit.
  unfold forecast. rewrite Hfit. unfold bind at 1.
  rewrite arange_shift, map_map.
  rewrite predict_nonempty.
  2:{ destruct (Z.to_nat h) as [| h'] eqn:Hnat; [lia | discriminate]. }
  unfold bind at 1.
  change (map fst (p :: s)) with (fst p :: map fst s).
  rewrite (iloc_last_last Z (fst p) 0%Z (map fst s)). unfold bind at 1.
  unfold date_range.
  destruct (Z.ltb_spec h 0) as [Hneg | _]; [lia |]. unfold bind.
  f_equal. unfold day_range. rewrite !map_map.
  rewrite combine_map_map. reflexivity.
Qed.

Lemma forecast_no_days : forall (s : list (Z * Q)) (forecast_days : Z),
  (forecast_days <= 0)%Z -> forecast s forecast_days = Raise ValueError.
Proof.
  intros [| p s] h Hh; [reflexivity |].
  pose proof (fitted_some (snd p) (map snd s)) as Hfit.
  change (snd p :: map snd s) with (map snd (p :: s)) in Hfit.
  unfold forecast. unfold fitted, day_number in Hfit.
  rewrite length_map in Hfit. rewrite Hfit. unfold bind at 1.
  rewrite arange_shift.
  replace (Z.to_nat h) with 0%nat by lia. reflexivity.
Qed.

(** ** Clipping and rounding *)

Lemma clip_lower_spec : forall lower v : Q,
  (v < lower -> clip_lower lower v = lower)
  /\ (lower <= v -> clip_lower lower v = v).
Proof.
  intros lower v. unfold clip_lower.
  destruct (v ?= lower) eqn:Hc; split; intros H; try reflexivity.
  - apply Qeq_alt in Hc. lra.
  - apply Qlt_alt in Hc. lra.
  - apply Qgt_alt in Hc. lra.
Qed.

Lemma clip_lower_ge : forall lower v : Q, lower <= clip_lower lower v.
Proof.
  intros lower v. destruct (clip_lower_spec lower v) as [Hlt Hge].
  destruct (Qlt_le_dec v lower) as [H | H].
  - rewrite (Hlt H). lra.
  - now rewrite (Hge H).
Qed.

Lemma rint_floor : forall x : Q,
  rint x = Qfloor x \/ rint x = (Qfloor x + 1)%Z.
Proof.
  intros x. unfold rint.
  destruct (Qcompare (x - inject_Z (Qfloor x)) (1 # 2)); auto.
  destruct (Z.even (Qfloor x)); auto.
Qed.


Lemma rint_nonneg : forall x : Q, 0 <= x -> (0 <= rint x)%Z.
Proof.
  intros x Hx.
  assert (Hfloor : (0 <= Qfloor x)%Z).
  { change 0%Z with (Qfloor 0). now apply Qfloor_resp_le. }
  destruct (rint_floor x) as [-> | ->]; lia.
Qed.

Lemma scale_pos : forall decimals : nat,
  0 < inject_Z (10 ^ Z.of_nat decimals).
Proof.
  intros decimals. change 0 with (inject_Z 0). rewrite <- Zlt_Qlt.
  apply Z.pow_pos_nonneg; lia.
Qed.

Lemma round_nonneg : forall (decimals : nat) (x : Q),
  0 <= x -> 0 <= round decimals x.
Proof.
  intros decimals x Hx. unfold round.
  pose proof (scale_pos decimals) as Hs.
  apply Qle_shift_div_l; [exact Hs |]. rewrite Qmult_0_l.
  change 0 with (inject_Z 0). rewrite <- Zle_Qle.
  apply rint_nonneg. apply Qmult_le_0_compat; lra.
Qed.

Lemma nth_error_map_seq : forall (A : Type) (f : nat -> A) (n k : nat),
  (k < n)%nat -> nth_error (map f (seq 0 n)) k = Some (f k).
Proof.
  intros A f n k Hk. rewrite nth_error_map, nth_error_seq.
  destruct (Nat.ltb_spec k n) as [_ | Hge]; [reflexivity | lia].
Qed.

(** ** Forecast dates *)

(** Scenario C: the series ends on 2024-01-10 (day 19732) and five days are
    asked for; the forecast dates are 2024-01-11 to 2024-01-15. *)
Example scenario_C :
  exists fc, forecast [(19731%Z, 120); (19732%Z, 80)] 5 = Ok fc
             /\ map fst fc = [19733; 19734; 19735; 19736; 19737]%Z.
Proof. eexists. split; reflexivity. Qed.

(** ** Forecast values *)

(** C5.  Every point of a computed forecast has a predicted revenue of at
    least 0, whatever the sign of the fitted slope: a raw prediction below 0
    is replaced by 0 before rounding. *)
Theorem forecast_nonnegative : forall (series : list (Z * Q)) (horizon_days : Z),
  series <> [] -> (1 <= horizon_days)%Z ->
  exists fc : list (Z * Q),
    forecast series horizon_days = Ok fc
    /\ (forall d v, In (d, v) fc -> 0 <= v)
    /\ (forall raw : Q, (raw < 0 -> clip_lower 0 raw = 0)
                        /\ (0 <= raw -> clip_lower 0 raw = raw)).
Proof.
  intros [| p s] h Hne Hh; [congruence |].
  destruct (forecast_shape p s h Hh) as [model [_ Hfc]].
  eexists. split; [exact Hfc |]. split.
  - intros d v Hin. apply in_map_iff in Hin. destruct Hin as [k [Heq _]].
    inversion Heq; subst. apply round_nonneg, clip_lower_ge.
  - intros raw. apply clip_lower_spec.
Qed.

Lemma forecast_nonnegative_witness :
  exists fc : list (Z * Q),
    forecast [(19731%Z, 120); (19732%Z, 80)] 7 = Ok fc
    /\ (forall d v, In (d, v) fc -> 0 <= v)
    /\ (forall raw : Q, (raw < 0 -> clip_lower 0 raw = 0)
                        /\ (0 <= raw -> clip_lower 0 raw = raw)).
Proof.
  apply (forecast_nonnegative [(19731%Z, 120); (19732%Z, 80)] 7).
  - discriminate.
  - lia.
Defined.

(** A falling series: slope -40, the line crosses zero inside the horizon
    and the forecast stays at 0 from there on. *)
Example falling_trend :
  (exists model, fitted [120; 80] = Ok model
                 /\ coef_ model == -40 /\ intercept_ model == 120)
  /\ exists fc, forecast [(19731%Z, 120); (19732%Z, 80)] 7 = Ok fc
                /\ Forall2 Qeq (map snd fc) [40; 0; 0; 0; 0; 0; 0].
Proof.
  split.
  - eexists. split; [reflexivity |]. split; reflexivity.
  - eexists. split; [reflexivity |]. repeat constructor.
Qed.

Example rounding_ties_to_even :
  round 2 (1 # 8) == 12 # 100 /\ round 2 (3 # 8) == 38 # 100
  /\ round 2 (98148 # 100000) == 98 # 100.
Proof. repeat split. Qed.

(** ** The horizon *)

(** C6, as stated, fails: nothing in the script turns a horizon outside
    7..90 into an error.  Run with a horizon of 6, the script computes a
    forecast of six points. *)
Lemma horizon_six_is_forecast :
  ~ (forall (upload : list RawRow) (country : string) (horizon_days : Z),
       (horizon_days < 7 \/ 90 < horizon_days)%Z ->
       exists e : exn, run upload country horizon_days = Raise e).
Proof.
  intros Hclaim.
  destruct (Hclaim
              [mkRawRow (Some (19723 * ns_per_day)%Z) (Some 1%Z) (Some 100)
                        (Some "UK"%string) (Some "mug"%string) [];
               mkRawRow (Some (19724 * ns_per_day)%Z) (Some 2%Z) (Some 100)
                        (Some "UK"%string) (Some "mug"%string) []]
              "UK"%string 6%Z) as [e He].
  - left. lia.
  - vm_compute in He. discriminate.
Qed.

Example six_day_forecast :
  exists fc,
    run [mkRawRow (Some (19723 * ns_per_day)%Z) (Some 1%Z) (Some 100)
                  (Some "UK"%string) (Some "mug"%string) [];
         mkRawRow (Some (19724 * ns_per_day)%Z) (Some 2%Z) (Some 100)
                  (Some "UK"%string) (Some "mug"%string) []]
        "UK"%string 6 = Ok fc
    /\ map fst fc = [19725; 19726; 19727; 19728; 19729; 19730]%Z
    /\ Forall2 Qeq (map snd fc) [300; 400; 500; 600; 700; 800].
Proof.
  eexists. split; [reflexivity |]. split; [reflexivity |]. repeat constructor.
Qed.

(** C6, amended.  The horizon is what the slider delivers, and the slider
    (7 to 90, initially 30) delivers nothing outside 7..90; for each value
    it delivers, the forecast of a non-empty series is computed and has
    that many points.  No invalid-horizon result exists. *)
Theorem horizon_from_slider : forall horizon_days : Z,
  slider 7 90 30 horizon_days ->
  (7 <= horizon_days <= 90)%Z
  /\ forall series : list (Z * Q),
       series <> [] ->
       exists fc : list (Z * Q),
         forecast series horizon_days = Ok fc
         /\ Z.of_nat (List.length fc) = horizon_days.
Proof.
  intros h Hslider.
  assert (Hrange : (7 <= h <= 90)%Z).
  { destruct Hslider as [| v Hv]; lia. }
  split; [exact Hrange |].
  intros [| p s] Hne; [congruence |].
  destruct (forecast_shape p s h) as [model [_ Hfc]]; [lia |].
  eexists. split; [exact Hfc |].
  rewrite length_map, length_seq. lia.
Qed.

Lemma horizon_from_slider_witness :
  (7 <= 30 <= 90)%Z
  /\ forall series : list (Z * Q),
       series <> [] ->
       exists fc : list (Z * Q),
         forecast series 30 = Ok fc /\ Z.of_nat (List.length fc) = 30%Z.
Proof.
  apply (horizon_from_slider 30).
  apply slider_initial.
Defined.

(** ** Short series *)

Lemma rint_comp : forall x y : Q, x == y -> rint x = rint y.
Proof.
  intros x y Hxy. unfold rint.
  rewrite (Qfloor_comp x y Hxy).
  assert (Hc : Qcompare (x - inject_Z (Qfloor y)) (1 # 2)
               = Qcompare (y - inject_Z (Qfloor y)) (1 # 2)).
  { apply Qcompare_comp; [now rewrite Hxy | reflexivity]. }
  now rewrite Hc.
Qed.

Lemma round_comp : forall (decimals : nat) (x y : Q),
  x == y -> round decimals x = round decimals y.
Proof.
  intros decimals x y Hxy. unfold round.
  rewrite (rint_comp (x * inject_Z (10 ^ Z.of_nat decimals))
                     (y * inject_Z (10 ^ Z.of_nat decimals))); [reflexivity |].
  now rewrite Hxy.
Qed.

Lemma clip_lower_comp : forall lower x y : Q,
  x == y -> clip_lower lower x == clip_lower lower y.
Proof.
  intros lower x y Hxy. unfold clip_lower.
  assert (Hc : (x ?= lower) = (y ?= lower)).
  { apply Qcompare_comp; [exact Hxy | reflexivity]. }
  rewrite Hc.
  destruct (y ?= lower); [exact Hxy | reflexivity | exact Hxy].
Qed.

(** The fit of a single point: the regressor has no variance, the slope is
    set to 0 and the intercept is the observed value. *)
Lemma fitted_single : forall v : Q,
  exists model : LinearRegression,
    fitted [v] = Ok model
    /\ sxx (day_number [v]) == 0
    /\ coef_ model = 0
    /\ intercept_ model == v.
Proof.
  intros v. eexists. split; [reflexivity |].
  split; [reflexivity |]. split; [reflexivity |].
  simpl. unfold mean, Qsum. simpl. field.
Qed.

(** C7, as stated, fails: a series of one point is fitted and projected
    like any other, although no slope is determined by it (every line
    through the point has residual sum of squares 0). *)
Lemma single_point_is_fitted :
  exists (model : LinearRegression) (fc : list (Z * Q)),
    (List.length [(19723%Z, 50)] < 2)%nat
    /\ fitted (map snd [(19723%Z, 50)]) = Ok model
    /\ (forall a : Q,
          sse a (50 - a * 0) (day_number (map snd [(19723%Z, 50)]))
              (map snd [(19723%Z, 50)]) == 0)
    /\ forecast [(19723%Z, 50)] 7 = Ok fc
    /\ map snd fc
       = map (fun k => round 2 (clip_lower 0 (predict_at model (1 + Z.of_nat k))))
             (seq 0 7).
Proof.
  eexists. eexists. split; [simpl; lia |].
  split; [reflexivity |]. split.
  - intros a. unfold sse, Qsum. simpl. ring.
  - split; reflexivity.
Qed.

(** C7, amended.  A series of fewer than two points is not guarded.  With
    no point the fit raises [ValueError].  With one point the fit goes
    through, with slope 0 and the observed value as intercept, and the
    forecast is flat: every point is the observed value clipped at 0 and
    rounded to two decimals. *)
Theorem short_series_forecast : forall (series : list (Z * Q)) (horizon_days : Z),
  (List.length series < 2)%nat -> (1 <= horizon_days)%Z ->
  (series = [] /\ forecast series horizon_days = Raise ValueError)
  \/ (exists (d : Z) (v : Q) (model : LinearRegression) (fc : list (Z * Q)),
        series = [(d, v)]
        /\ fitted (map snd series) = Ok model
        /\ coef_ model = 0
        /\ intercept_ model == v
        /\ forecast series horizon_days = Ok fc
        /\ Z.of_nat (List.length fc) = horizon_days
        /\ (forall d' u, In (d', u) fc -> u = round 2 (clip_lower 0 v))).
Proof.
  intros [| [d v] [| q s]] h Hlen Hh.
  - left. split; reflexivity.
  - right.
    destruct (forecast_shape (d, v) [] h Hh) as [model [Hfit Hfc]].
    destruct (fitted_single v) as [model' [Hfit' [_ [Hcoef Hicpt]]]].
    simpl map in Hfit. rewrite Hfit' in Hfit. injection Hfit as ->.
    exists d, v, model. eexists.
    split; [reflexivity |]. split; [exact Hfit' |].
    split; [exact Hcoef |]. split; [exact Hicpt |].
    split; [exact Hfc |]. split.
    + rewrite length_map, length_seq. lia.
    + intros d' u Hin. apply in_map_iff in Hin. destruct Hin as [k [Heq _]].
      inversion Heq; subst. apply round_comp, clip_lower_comp.
      unfold predict_at. rewrite Hcoef, Hicpt. ring.
  - simpl in Hlen. lia.
Qed.

Lemma short_series_forecast_witness :
  ([(19723%Z, 50)] = [] /\ forecast [(19723%Z, 50)] 7 = Raise ValueError)
  \/ (exists (d : Z) (v : Q) (model : LinearRegression) (fc : list (Z * Q)),
        [(19723%Z, 50)] = [(d, v)]
        /\ fitted (map snd [(19723%Z, 50)]) = Ok model
        /\ coef_ model = 0
        /\ intercept_ model == v
        /\ forecast [(19723%Z, 50)] 7 = Ok fc
        /\ Z.of_nat (List.length fc) = 7%Z
        /\ (forall d' u, In (d', u) fc -> u = round 2 (clip_lower 0 v))).
Proof.
  apply (short_series_forecast [(19723%Z, 50)] 7).
  - simpl. lia.
  - lia.
Defined.

(** ** Product ranking *)

Lemma In_firstn : forall (A : Type) (n : nat) (l : list A) (x : A),
  In x (firstn n l) -> In x l.
Proof.
  intros A n l x Hx. rewrite <- (firstn_skipn n l). apply in_or_app. now left.
Qed.

Lemma In_skipn : forall (A : Type) (n : nat) (l : list A) (x : A),
  In x (skipn n l) -> In x l.
Proof.
  intros A n l x Hx. rewrite <- (firstn_skipn n l). apply in_or_app. now right.
Qed.

Section SortFacts.
Context {K : Type}.

Lemma insert_asc_perm : forall (x : K * Q) (l : list (K * Q)),
  Permutation (insert_asc x l) (x :: l).
Proof.
  intros x l. induction l as [| y l IH]; simpl.
  - reflexivity.
  - destruct (Qle_bool (snd x) (snd y)).
    + reflexivity.
    + rewrite IH. apply perm_swap.
Qed.

Lemma sort_asc_perm : forall l : list (K * Q), Permutation (sort_asc l) l.
Proof.
  intros l. induction l as [| x l IH]; simpl.
  - reflexivity.
  - rewrite insert_asc_perm. now constructor.
Qed.

Lemma sort_values_desc_perm : forall l : list (K * Q),
  Permutation (sort_values_desc l) l.
Proof.
  intros l. unfold sort_values_desc.
  rewrite <- Permutation_rev, sort_asc_perm. symmetry. apply Permutation_rev.
Qed.

Lemma insert_asc_sorted : forall (x : K * Q) (l : list (K * Q)),
  StronglySorted by_value_asc l -> StronglySorted by_value_asc (insert_asc x l).
Proof.
  intros x l Hs. induction Hs as [| y l Hs IH Hall]; simpl.
  - constructor; constructor.
  - destruct (Qle_bool (snd x) (snd y)) eqn:Hle.
    + apply Qle_bool_iff in Hle. constructor.
      * now constructor.
      * constructor; [exact Hle |].
        eapply Forall_impl; [| exact Hall].
        intros z Hz. unfold by_value_asc in *. lra.
    + assert (Hlt : snd y <= snd x).
      { destruct (Qlt_le_dec (snd y) (snd x)) as [H | H]; [lra |].
        apply Qle_bool_iff in H. congruence. }
      constructor; [exact IH |].
      eapply Permutation_Forall.
      * symmetry. apply insert_asc_perm.
      * constructor; assumption.
Qed.

Lemma sort_asc_sorted : forall l : list (K * Q),
  StronglySorted by_value_asc (sort_asc l).
Proof.
  intros l. induction l as [| x l IH]; simpl.
  - constructor.
  - now apply insert_asc_sorted.
Qed.

Lemma sorted_snoc : forall (l : list (K * Q)) (x : K * Q),
  StronglySorted by_value_desc l -> Forall (fun y => by_value_desc y x) l ->
  StronglySorted by_value_desc (l ++ [x]).
Proof.
  intros l x Hs. induction Hs as [| y l Hs IH Hall]; intros Hx; simpl.
  - constructor; constructor.
  - inversion Hx as [| ? ? Hyx Hlx]; subst. constructor.
    + now apply IH.
    + apply Forall_app. split; [exact Hall |]. now constructor.
Qed.

Lemma sorted_rev : forall l : list (K * Q),
  StronglySorted by_value_asc l -> StronglySorted by_value_desc (rev l).
Proof.
  intros l Hs. induction Hs as [| y l Hs IH Hall]; simpl.
  - constructor.
  - apply sorted_snoc; [exact IH |].
    apply Forall_rev. exact Hall.
Qed.

Lemma sort_values_desc_sorted : forall l : list (K * Q),
  StronglySorted by_value_desc (sort_values_desc l).
Proof.
  intros l. unfold sort_values_desc. apply sorted_rev, sort_asc_sorted.
Qed.

Lemma sorted_firstn : forall (n : nat) (l : list (K * Q)),
  StronglySorted by_value_desc l -> StronglySorted by_value_desc (firstn n l).
Proof.
  intros n l Hs. revert n. induction Hs as [| y l Hs IH Hall]; intros [| n]; simpl;
    try constructor.
  - apply IH.
  - rewrite Forall_forall in *. intros z Hz. apply Hall.
    revert Hz. apply In_firstn.
Qed.

Lemma sorted_descending : forall l : list (K * Q),
  StronglySorted by_value_desc l -> descending (map snd l).
Proof.
  intros l Hs. induction Hs as [| y l Hs IH Hall]; [exact I |].
  destruct l as [| z l]; [exact I |].
  split; [| exact IH].
  inversion Hall; subst. assumption.
Qed.

(** In a descending list, nothing behind the first [n] entries exceeds
    any of them. *)
Lemma sorted_firstn_skipn : forall (n : nat) (l : list (K * Q)) (x y : K * Q),
  StronglySorted by_value_desc l -> In x (firstn n l) -> In y (skipn n l) ->
  snd y <= snd x.
Proof.
  intros n l x y Hs. revert n.
  induction Hs as [| z l Hs IH Hall]; intros [| n] Hx Hy; simpl in *;
    try contradiction.
  destruct Hx as [-> | Hx].
  - rewrite Forall_forall in Hall. apply (Hall y).
    revert Hy. apply In_skipn.
  - now apply (IH n).
Qed.
End SortFacts.

Lemma description_columns : forall df : list Row,
  map fst (map (fun r => (Description r, TotalSales r)) df) = map Description df.
Proof. intros. rewrite map_map. reflexivity. Qed.

Lemma product_sales_descriptions : forall df : list Row,
  Permutation (map fst (product_sales df))
              (nodup string_dec (map Description df)).
Proof.
  intros df. unfold product_sales.
  rewrite (Permutation_map fst (sort_values_desc_perm _)).
  rewrite groupby_sum_keys, description_columns.
  symmetry. apply StringSort.Permuted_sort.
Qed.

Lemma product_sales_length : forall df : list Row,
  List.length (product_sales df) = distinct_descriptions df.
Proof.
  intros df. unfold distinct_descriptions.
  rewrite <- (Permutation_length (product_sales_descriptions df)).
  now rewrite length_map.
Qed.

Lemma group_rows : forall (desc : string) (df : list Row),
  group string_dec desc (map (fun r => (Description r, TotalSales r)) df)
  = map TotalSales (filter (fun r => String.eqb (Description r) desc) df).
Proof.
  intros desc df. unfold group.
  induction df as [| r df IH]; simpl; [reflexivity |].
  destruct (string_dec (Description r) desc) as [Heq | Hne].
  - apply String.eqb_eq in Heq. rewrite Heq. simpl. now rewrite IH.
  - apply String.eqb_neq in Hne. now rewrite Hne.
Qed.

(** An entry of the ranking is a description of the table with the sum of
    the revenue of its lines. *)
Lemma product_sales_entry : forall (df : list Row) (desc : string) (revenue : Q),
  In (desc, revenue) (product_sales df) ->
  In desc (map Description df)
  /\ revenue
     = Qsum (map TotalSales
                 (filter (fun r => String.eqb (Description r) desc) df)).
Proof.
  intros df desc revenue Hin. unfold product_sales in Hin.
  apply (Permutation_in _ (sort_values_desc_perm _)) in Hin.
  unfold groupby_sum in Hin. apply in_map_iff in Hin.
  destruct Hin as [k [Heq Hk]]. inversion Heq; subst. split.
  - apply (Permutation_in _ (Permutation_sym (StringSort.Permuted_sort _))) in Hk.
    apply nodup_In in Hk. now rewrite description_columns in Hk.
  - unfold Qsum. now rewrite group_rows.
Qed.

Lemma NoDup_firstn : forall (A : Type) (n : nat) (l : list A),
  NoDup l -> NoDup (firstn n l).
Proof.
  intros A n l Hnd. rewrite <- (firstn_skipn n l) in Hnd.
  now apply NoDup_app_remove_r in Hnd.
Qed.

(** C8, as stated, fails: two descriptions with the same summed revenue are
    ranked next to each other, so the ranking is not strictly descending;
    and they come in the order of the sorted group keys, not in the order
    the descriptions were met in the table. *)
Lemma equal_revenue_ranking :
  ~ strictly_descending
      (map snd (top_products 5 [mkRow (19723 * ns_per_day) 1 10 "UK" "pen";
                                mkRow (19723 * ns_per_day) 2 5 "UK" "cup"]))
  /\ map fst (top_products 5 [mkRow (19723 * ns_per_day) 1 10 "UK" "pen";
                              mkRow (19723 * ns_per_day) 2 5 "UK" "cup"])
     = ["cup"; "pen"]%string.
Proof.
  split; [| reflexivity].
  simpl. intros [Hlt _]. revert Hlt. apply Qle_not_lt. apply Qle_lteq.
  right. reflexivity.
Qed.

(** C8, amended.  [top_products n] has exactly [min n (number of distinct
    descriptions)] entries; they are distinct descriptions of the table,
    each with the sum of the revenue of its lines; the revenues never
    increase along the list (equal revenues are allowed); and no
    description left out has more revenue than one that is listed. *)
Theorem top_products_ranking : forall (n : nat) (df : list Row),
  List.length (top_products n df) = Nat.min n (distinct_descriptions df)
  /\ descending (map snd (top_products n df))
  /\ NoDup (map fst (top_products n df))
  /\ (forall desc revenue,
        In (desc, revenue) (top_products n df) ->
        In desc (map Description df)
        /\ revenue
           = Qsum (map (fun r => inject_Z (Quantity r) * UnitPrice r)
                       (filter (fun r => String.eqb (Description r) desc) df)))
  /\ (forall listed other,
        In listed (top_products n df) ->
        In other (product_sales df) ->
        ~ In other (top_products n df) ->
        snd other <= snd listed).
Proof.
  intros n df. unfold top_products.
  assert (Hsorted : StronglySorted by_value_desc (product_sales df)).
  { unfold product_sales. apply sort_values_desc_sorted. }
  split; [| split; [| split; [| split]]].
  - now rewrite length_firstn, product_sales_length.
  - apply sorted_descending. now apply sorted_firstn.
  - rewrite <- firstn_map. apply NoDup_firstn.
    eapply Permutation_NoDup.
    + symmetry. apply product_sales_descriptions.
    + apply NoDup_nodup.
  - intros desc revenue Hin. apply In_firstn in Hin.
    now apply product_sales_entry.
  - intros listed other Hlisted Hother Hnot.
    apply (sorted_firstn_skipn n (product_sales df)); try assumption.
    rewrite <- (firstn_skipn n (product_sales df)) in Hother.
    apply in_app_or in Hother. destruct Hother as [H | H]; [contradiction | exact H].
Qed.

Example top_two :
  exists top, top_products 2 [mkRow 0 1 10 "UK" "pen"; mkRow 0 1 15 "UK" "cup";
                              mkRow 0 2 10 "UK" "pen"; mkRow 0 1 12 "UK" "mug";
                              mkRow 0 (-1) 12 "UK" "mug"] = top
              /\ map fst top = ["pen"; "cup"]%string
              /\ Forall2 Qeq (map snd top) [30; 15].
Proof.
  eexists. split; [reflexivity |]. split; [reflexivity |]. repeat constructor.
Qed.

(** ** Returns *)

Lemma dropna_app : forall l1 l2 : list RawRow,
  dropna (l1 ++ l2) = dropna l1 ++ dropna l2.
Proof.
  intros l1 l2. induction l1 as [| r l1 IH]; simpl; [reflexivity |].
  destruct (row_of_raw r); simpl; now rewrite IH.
Qed.

Lemma row_of_raw_complete : forall (t q : Z) (p : Q) (c d : string)
    (other : list (option string)),
  forallb notna other = true ->
  row_of_raw (mkRawRow (Some t) (Some q) (Some p) (Some c) (Some d) other)
  = Some (mkRow t q p c d).
Proof.
  intros t q p c d other Hother. unfold row_of_raw. simpl. now rewrite Hother.
Qed.

Lemma filter_middle : forall (A : Type) (g : A -> bool) (l1 l2 : list A) (x : A),
  g x = true -> filter g (l1 ++ x :: l2) = filter g l1 ++ x :: filter g l2.
Proof.
  intros A g l1 l2 x Hx. rewrite filter_app. simpl. now rewrite Hx.
Qed.

(** The series of a non-empty table has an entry for the day of each of
    its lines. *)
Lemma daily_has_day : forall (V : Type) (col_sum : list V -> V)
    (col : Row -> V) (df : list Row) (r : Row),
  In r df ->
  exists v, In (floor_day (InvoiceDate r), v) (daily col_sum col df).
Proof.
  intros V col_sum col df r Hr.
  assert (Hne : df <> []) by (intros ->; destruct Hr).
  destruct (min_max_date_some df Hne) as [lo [hi [Hlo [Hhi Hrange]]]].
  pose proof (daily_dates V col_sum col df lo hi Hlo Hhi) as Hdates.
  assert (Hin : In (floor_day (InvoiceDate r))
                   (map fst (daily col_sum col df))).
  { rewrite Hdates. apply day_range_In. specialize (Hrange r Hr). lia. }
  apply in_map_iff in Hin. destruct Hin as [[d v] [Hd Hv]].
  simpl in Hd. subst d. now exists v.
Qed.

(** C9, as stated, fails twice.  A line with a negative quantity and all
    five fields the script uses is still dropped when a cell of another
    column is missing, because [dropna] looks at every column.  And a
    retained line with a negative quantity lowers no total when its unit
    price is 0. *)
Lemma return_dropped_or_free :
  dropna [mkRawRow (Some (19723 * ns_per_day)%Z) (Some (-2)%Z) (Some 5%Q)
                   (Some "UK"%string) (Some "mug"%string)
                   [Some "C536379"%string; None]] = []
  /\ In (mkRow (19723 * ns_per_day) (-2) 0 "UK" "mug")
        (dropna [mkRawRow (Some (19723 * ns_per_day)%Z) (Some 3%Z) (Some 5%Q)
                          (Some "UK"%string) (Some "mug"%string) [];
                 mkRawRow (Some (19723 * ns_per_day)%Z) (Some (-2)%Z) (Some 0%Q)
                          (Some "UK"%string) (Some "mug"%string) []])
  /\ Qsum (map snd (daily_sales (select_country "UK"
        (dropna [mkRawRow (Some (19723 * ns_per_day)%Z) (Some 3%Z) (Some 5%Q)
                          (Some "UK"%string) (Some "mug"%string) [];
                 mkRawRow (Some (19723 * ns_per_day)%Z) (Some (-2)%Z) (Some 0%Q)
                          (Some "UK"%string) (Some "mug"%string) []]))))
     == Qsum (map snd (daily_sales (select_country "UK"
        (dropna [mkRawRow (Some (19723 * ns_per_day)%Z) (Some 3%Z) (Some 5%Q)
                          (Some "UK"%string) (Some "mug"%string) []])))).
Proof.
  split; [reflexivity |]. split; [| reflexivity].
  simpl. right. left. reflexivity.
Qed.

(** ** What enters a daily total *)

Local Open Scope Z_scope.





Lemma timestamps_In : forall (df : list Row) (t : Z),
  In t (timestamps df) <-> exists r, In r df /\ InvoiceDate r = t.
Proof.
  intros df t. unfold timestamps. rewrite sorted_keys_In, in_map_iff.
  split; intros [r [H1 H2]]; exists r; tauto.
Qed.

Lemma group_of_timestamp : forall (V : Type) (col : Row -> V) (t : Z)
    (df : list Row),
  group Z.eq_dec t (map (fun r => (InvoiceDate r, col r)) df)
  = map col (filter (fun r => InvoiceDate r =? t) df).
Proof.
  intros V col t df. unfold group.
  induction df as [| r df IH]; simpl; [reflexivity |].
  destruct (Z.eq_dec (InvoiceDate r) t) as [Heq | Hne].
  - apply Z.eqb_eq in Heq. rewrite Heq. simpl. now rewrite IH.
  - apply Z.eqb_neq in Hne. now rewrite Hne.
Qed.

Lemma groupby_by_timestamp : forall (V : Type) (col_sum : list V -> V)
    (col : Row -> V) (df : list Row),
  groupby_sum col_sum Z.eq_dec ZSort.sort
              (map (fun r => (InvoiceDate r, col r)) df)
  = map (fun t => (t, col_sum
                        (map col (filter (fun r => InvoiceDate r =? t) df))))
        (timestamps df).
Proof.
  intros V col_sum col df. unfold groupby_sum, timestamps.
  rewrite date_columns. apply map_ext. intros t.
  now rewrite group_of_timestamp.
Qed.

Lemma on_day_map : forall (V : Type) (f : Z -> V) (d : Z) (keys : list Z),
  on_day d (map (fun t => (t, f t)) keys)
  = map f (filter (fun t => floor_day t =? d) keys).
Proof.
  intros V f d keys. unfold on_day.
  induction keys as [| t keys IH]; simpl; [reflexivity |].
  destruct (floor_day t =? d); simpl; now rewrite IH.
Qed.

(** A point of a daily series is the sum, over the timestamps of its day
    in ascending order, of the sums, in line order, of the column over the
    lines of each timestamp. *)
Lemma daily_point : forall (V : Type) (col_sum : list V -> V)
    (col : Row -> V) (df : list Row) (d : Z) (v : V),
  In (d, v) (daily col_sum col df) ->
  v = col_sum
        (map (fun t => col_sum
                         (map col (filter (fun r => InvoiceDate r =? t) df)))
             (filter (fun t => floor_day t =? d) (timestamps df))).
Proof.
  intros V col_sum col df d v Hin.
  rewrite (daily_entry _ _ _ _ _ _ Hin).
  now rewrite groupby_by_timestamp, on_day_map.
Qed.



(** ** Revenue total and row order *)




(** ** The forecast starts the day after the last date *)

Local Open Scope Q_scope.

Lemma forecast_after_last : forall (earlier : list (Z * Q)) (last_date : Z)
    (last_value : Q) (forecast_days : Z),
  (1 <= forecast_days)%Z ->
  exists model : LinearRegression,
    forecast (earlier ++ [(last_date, last_value)]) forecast_days
    = Ok (map (fun k =>
                 ((last_date + 1 + Z.of_nat k)%Z,
                  round 2 (clip_lower 0
                    (predict_at model
                       (Z.of_nat (List.length (earlier ++ [(last_date, last_value)]))
                        + Z.of_nat k)))))
              (seq 0 (Z.to_nat forecast_days))).
Proof.
  intros earlier d v h Hh.
  destruct (earlier ++ [(d, v)]) as [| p s] eqn:Hseries.
  - destruct earlier; discriminate.
  - destruct (forecast_shape p s h Hh) as [model [_ Hfc]].
    exists model. rewrite Hfc. do 2 f_equal.
    rewrite <- Hseries, map_app. simpl map. now rewrite last_last.
Qed.

(** C4.  For a daily series that ends with the date [last_date], whatever
    comes before, and a horizon of at least one day (the slider delivers 7
    to 90), the forecast is computed and has exactly [horizon_days] points;
    point [k] is dated [last_date + 1 + k]: the consecutive calendar days
    that start the day after the last date of the series, none skipped. *)
Theorem forecast_contiguity :
  forall (earlier : list (Z * Q)) (last_date : Z) (last_value : Q)
         (horizon_days : Z),
  (1 <= horizon_days)%Z ->
  exists fc : list (Z * Q),
    forecast (earlier ++ [(last_date, last_value)]) horizon_days = Ok fc
    /\ Z.of_nat (List.length fc) = horizon_days
    /\ (forall k : nat, (Z.of_nat k < horizon_days)%Z ->
          nth_error (map fst fc) k = Some (last_date + 1 + Z.of_nat k)%Z)
    /\ map fst fc = day_range (last_date + 1) (Z.to_nat horizon_days).
Proof.
  intros earlier d v h Hh.
  destruct (forecast_after_last earlier d v h Hh) as [model Hfc].
  eexists. split; [exact Hfc |]. split; [| split].
  - rewrite length_map, length_seq. lia.
  - intros k Hk. rewrite map_map. rewrite nth_error_map_seq by lia. reflexivity.
  - rewrite map_map. reflexivity.
Qed.

Lemma forecast_contiguity_witness :
  exists fc : list (Z * Q),
    forecast ([(19730%Z, 95); (19731%Z, 120)] ++ [(19732%Z, 80)]) 5 = Ok fc
    /\ Z.of_nat (List.length fc) = 5%Z
    /\ (forall k : nat, (Z.of_nat k < 5)%Z ->
          nth_error (map fst fc) k = Some (19732 + 1 + Z.of_nat k)%Z)
    /\ map fst fc = day_range (19732 + 1) (Z.to_nat 5).
Proof.
  apply (forecast_contiguity [(19730%Z, 95); (19731%Z, 120)] 19732 80 5).
  lia.
Defined.

(** ** Rounded forecast values *)



(** The decimal 0.575 is held as the binary64 value
    5179139571476070 / 2^53, just below the tie, and that value rounds to
    0.57. *)
Example rounding_of_a_binary64_cell :
  Q2F (23 # 40) = Q2F (5179139571476070 # 9007199254740992)
  /\ 5179139571476070 # 9007199254740992 < 23 # 40
  /\ round 2 (5179139571476070 # 9007199254740992) == 57 # 100.
Proof.
  split; [vm_compute; reflexivity |]. split; reflexivity.
Qed.

(** ** What a return adds *)

Local Open Scope Z_scope.

(** A line of a table has a point in the daily series on its day, and is
    among the lines summed for its timestamp, which is among the timestamps
    summed for its day. *)
Lemma line_enters_its_day : forall (V : Type) (col_sum : list V -> V)
    (col : Row -> V) (df : list Row) (row : Row),
  In row df ->
  (exists v : V,
     In (floor_day (InvoiceDate row), v) (daily col_sum col df)
     /\ v = col_sum
              (map (fun t => col_sum
                      (map col (filter (fun r => InvoiceDate r =? t) df)))
                   (filter (fun t => floor_day t =? floor_day (InvoiceDate row))
                           (timestamps df))))
  /\ In (InvoiceDate row)
        (filter (fun t => floor_day t =? floor_day (InvoiceDate row))
                (timestamps df))
  /\ In row (filter (fun r => InvoiceDate r =? InvoiceDate row) df).
Proof.
  intros V col_sum col df row Hrow. split; [| split].
  - destruct (daily_has_day V col_sum col df row Hrow) as [v Hv].
    exists v. split; [exact Hv | now apply daily_point].
  - apply filter_In. split; [| apply Z.eqb_refl].
    apply timestamps_In. now exists row.
  - apply filter_In. split; [exact Hrow | apply Z.eqb_refl].
Qed.

(** A return of one unit at price 1 on a timestamp that sold for 1e16
    leaves the binary64 total where it was: the term is added, and the
    sum rounds back. *)
Example return_absorbed :
  total_sales64 (daily_sales64
    [mkRow (19723 * ns_per_day) 1 (10000000000000000 # 1) "UK" "desk";
     mkRow (19723 * ns_per_day) (-1) 1 "UK" "pen"])
  = total_sales64 (daily_sales64
    [mkRow (19723 * ns_per_day) 1 (10000000000000000 # 1) "UK" "desk"])
  /\ PrimFloat.ltb (TotalSale64 (mkRow (19723 * ns_per_day) (-1) 1 "UK" "pen"))
                   PrimFloat.zero = true.
Proof. split; vm_compute; reflexivity. Qed.

(** C9, amended.  A line with a negative quantity and no missing cell in
    any column is kept by the cleaning and by the filter of its country.
    The daily series of that country have a point on the day of the line;
    the revenue of that day is the sum, over the timestamps of the day, of
    the sums over the lines of each timestamp, and the line's quantity x
    unit price is one of the terms of the sum of its timestamp, in exact
    arithmetic and in binary64 alike; likewise its quantity is a term of
    the units of its day.  The term is quantity x unit price, negative
    whenever the unit price is positive.  That the total gets smaller is
    not promised. *)
Theorem returns_are_kept : forall (before after : list RawRow) (t q : Z) (p : Q)
    (c d : string) (other : list (option string)),
  forallb notna other = true -> q < 0 ->
  let row := mkRow t q p c d in
  let df := select_country c
              (dropna (before
                       ++ mkRawRow (Some t) (Some q) (Some p) (Some c) (Some d) other
                       :: after)) in
  let same_day := filter (fun t' => floor_day t' =? floor_day t) (timestamps df) in
  let lines_of := fun t' => filter (fun r => InvoiceDate r =? t') df in
  In row (dropna (before
                  ++ mkRawRow (Some t) (Some q) (Some p) (Some c) (Some d) other
                  :: after))
  /\ In row df
  /\ In t same_day
  /\ In row (lines_of t)
  /\ (exists revenue : Q,
        In (floor_day t, revenue) (daily_sales df)
        /\ revenue
           = Qsum (map (fun t' => Qsum (map TotalSale (lines_of t'))) same_day))
  /\ (exists revenue64 : PrimFloat.float,
        In (floor_day t, revenue64) (daily_sales64 df)
        /\ revenue64
           = sum64 (map (fun t' => sum64 (map TotalSale64 (lines_of t')))
                        same_day))
  /\ (exists units : Z,
        In (floor_day t, units) (daily_units df)
        /\ units
           = sum_int64
               (map (fun t' => sum_int64 (map Quantity (lines_of t')))
                    same_day))
  /\ TotalSale row = (inject_Z q * p)%Q
  /\ Quantity row = q
  /\ (0 < p -> TotalSale row < 0)%Q.
Proof.
  intros before after t q p c d other Hother Hq row df same_day lines_of.
  set (raw := mkRawRow (Some t) (Some q) (Some p) (Some c) (Some d) other) in *.
  assert (Hclean : In row (dropna (before ++ raw :: after))).
  { rewrite dropna_app. apply in_or_app. right. simpl. unfold raw.
    rewrite (row_of_raw_complete t q p c d other Hother). now left. }
  assert (Hrow : In row df).
  { unfold df, select_country. apply filter_In. split; [exact Hclean |].
    simpl. apply String.eqb_refl. }
  destruct (line_enters_its_day Q Qsum TotalSale df row Hrow)
    as [Hrev [Hday Hline]].
  destruct (line_enters_its_day PrimFloat.float sum64 TotalSale64 df row Hrow)
    as [Hrev64 _].
  destruct (line_enters_its_day Z sum_int64 Quantity df row Hrow)
    as [Hunits _].
  split; [exact Hclean |]. split; [exact Hrow |].
  split; [exact Hday |]. split; [exact Hline |].
  split; [exact Hrev |]. split; [exact Hrev64 |]. split; [exact Hunits |].
  split; [reflexivity |]. split; [reflexivity |].
  intros Hp. unfold TotalSale. simpl.
  assert (Hq' : (inject_Z q < 0)%Q).
  { change 0%Q with (inject_Z 0). rewrite <- Zlt_Qlt. exact Hq. }
  nra.
Qed.

Lemma returns_are_kept_witness :
  let row := mkRow (19723 * ns_per_day) (-2) 5 "UK" "mug" in
  let df := select_country "UK"
              (dropna ([mkRawRow (Some (19723 * ns_per_day)) (Some 3) (Some 5%Q)
                                 (Some "UK"%string) (Some "mug"%string) []]
                       ++ mkRawRow (Some (19723 * ns_per_day)) (Some (-2))
                                   (Some 5%Q) (Some "UK"%string)
                                   (Some "mug"%string) [Some "C536379"%string]
                       :: [mkRawRow (Some (19724 * ns_per_day)) (Some 1)
                                    (Some 2%Q) (Some "France"%string)
                                    (Some "cup"%string) []])) in
  let same_day := filter (fun t' => floor_day t' =? floor_day (19723 * ns_per_day))
                         (timestamps df) in
  let lines_of := fun t' => filter (fun r => InvoiceDate r =? t') df in
  In row (dropna ([mkRawRow (Some (19723 * ns_per_day)) (Some 3) (Some 5%Q)
                            (Some "UK"%string) (Some "mug"%string) []]
                  ++ mkRawRow (Some (19723 * ns_per_day)) (Some (-2))
                              (Some 5%Q) (Some "UK"%string)
                              (Some "mug"%string) [Some "C536379"%string]
                  :: [mkRawRow (Some (19724 * ns_per_day)) (Some 1)
                               (Some 2%Q) (Some "France"%string)
                               (Some "cup"%string) []]))
  /\ In row df
  /\ In (19723 * ns_per_day) same_day
  /\ In row (lines_of (19723 * ns_per_day))
  /\ (exists revenue : Q,
        In (floor_day (19723 * ns_per_day), revenue) (daily_sales df)
        /\ revenue
           = Qsum (map (fun t' => Qsum (map TotalSale (lines_of t'))) same_day))
  /\ (exists revenue64 : PrimFloat.float,
        In (floor_day (19723 * ns_per_day), revenue64) (daily_sales64 df)
        /\ revenue64
           = sum64 (map (fun t' => sum64 (map TotalSale64 (lines_of t')))
                        same_day))
  /\ (exists units : Z,
        In (floor_day (19723 * ns_per_day), units) (daily_units df)
        /\ units
           = sum_int64
               (map (fun t' => sum_int64 (map Quantity (lines_of t')))
                    same_day))
  /\ TotalSale row = (inject_Z (-2) * 5)%Q
  /\ Quantity row = -2
  /\ (0 < 5 -> TotalSale row < 0)%Q.
Proof.
  apply (returns_are_kept
           [mkRawRow (Some (19723 * ns_per_day)) (Some 3) (Some 5%Q)
                     (Some "UK"%string) (Some "mug"%string) []]
           [mkRawRow (Some (19724 * ns_per_day)) (Some 1) (Some 2%Q)
                     (Some "France"%string) (Some "cup"%string) []]
           (19723 * ns_per_day) (-2) 5 "UK" "mug" [Some "C536379"%string]).
  - reflexivity.
  - lia.
Defined.

(** * Further properties of the script *)

Local Open Scope Z_scope.

(** ** Length of the daily series *)

Lemma daily_length : forall (V : Type) (col_sum : list V -> V)
    (col : Row -> V) (df : list Row) (lo hi : Z),
  min_date df = Some lo -> max_date df = Some hi ->
  lo <= hi
  /\ Z.of_nat (List.length (daily col_sum col df)) = hi - lo + 1.
Proof.
  intros V col_sum col df lo hi Hlo Hhi.
  assert (Hle : lo <= hi).
  { destruct df as [| r df]; [discriminate |].
    destruct (min_max_date_some (r :: df)) as [lo' [hi' [Hlo' [Hhi' Hrange]]]];
      [discriminate |].
    rewrite Hlo in Hlo'. rewrite Hhi in Hhi'.
    injection Hlo' as <-. injection Hhi' as <-.
    specialize (Hrange r (or_introl eq_refl)). lia. }
  split; [exact Hle |].
  rewrite <- (length_map fst), (daily_dates V col_sum col df lo hi Hlo Hhi).
  rewrite day_range_length. lia.
Qed.

(** ** When the forecast is computed *)

Local Open Scope Q_scope.

Lemma forecast_outcome : forall (series : list (Z * Q)) (forecast_days : Z),
  (series <> [] /\ (1 <= forecast_days)%Z
   /\ exists fc, forecast series forecast_days = Ok fc)
  \/ ((series = [] \/ (forecast_days <= 0)%Z)
      /\ forecast series forecast_days = Raise ValueError).
Proof.
  intros series h.
  destruct (Z.le_gt_cases 1 h) as [Hh | Hh].
  - destruct series as [| p s].
    + right. split; [now left | reflexivity].
    + left. split; [discriminate | split; [exact Hh |]].
      destruct (forecast_shape p s h Hh) as [model [_ Hfc]].
      eexists. exact Hfc.
  - right. split; [right; lia |]. apply forecast_no_days. lia.
Qed.

(** X5.  The forecasting code yields a forecast exactly when the series
    has at least one point and at least one day is asked for; in every
    other case it raises [ValueError] (from the fit when the series is
    empty, from the prediction when no day is asked for), and it never
    raises [IndexError]. *)
Theorem forecast_succeeds_iff : forall (series : list (Z * Q)) (forecast_days : Z),
  ((exists fc, forecast series forecast_days = Ok fc)
   <-> (series <> [] /\ (1 <= forecast_days)%Z))
  /\ (forecast series forecast_days = Raise ValueError
      <-> (series = [] \/ (forecast_days <= 0)%Z))
  /\ forecast series forecast_days <> Raise IndexError.
Proof.
  intros series h.
  destruct (forecast_outcome series h)
    as [[Hne [Hh [fc Hfc]]] | [Hbad Hraise]].
  - split; [| split].
    + split; [intros _; now split | intros _; now exists fc].
    + split; [intros H; congruence |].
      intros [-> | Hle]; [congruence | lia].
    + congruence.
  - split; [| split].
    + split.
      * intros [fc Hfc]. congruence.
      * intros [Hne Hh]. destruct Hbad as [-> | Hle]; [congruence | lia].
    + split; [intros _; exact Hbad | intros _; exact Hraise].
    + congruence.
Qed.

(** ** The forecast follows the trend *)

Lemma rint_mono : forall x y : Q, x <= y -> (rint x <= rint y)%Z.
Proof.
  intros x y Hxy.
  pose proof (Qfloor_resp_le x y Hxy) as Hfloor.
  destruct (Z.eq_dec (Qfloor x) (Qfloor y)) as [Heq | Hne].
  - unfold rint. rewrite Heq.
    assert (Hfrac : x - inject_Z (Qfloor y) <= y - inject_Z (Qfloor y)) by lra.
    destruct (Qcompare_spec (x - inject_Z (Qfloor y)) (1 # 2)) as [Hcx | Hcx | Hcx];
      destruct (Qcompare_spec (y - inject_Z (Qfloor y)) (1 # 2)) as [Hcy | Hcy | Hcy];
      try (exfalso; lra);
      destruct (Z.even (Qfloor y)); lia.
  - destruct (rint_floor x) as [-> | ->], (rint_floor y) as [-> | ->]; lia.
Qed.

Lemma round_mono : forall (decimals : nat) (x y : Q),
  x <= y -> round decimals x <= round decimals y.
Proof.
  intros decimals x y Hxy. unfold round.
  pose proof (scale_pos decimals) as Hs.
  set (s := inject_Z (10 ^ Z.of_nat decimals)) in *.
  assert (Hr : inject_Z (rint (x * s)) <= inject_Z (rint (y * s))).
  { rewrite <- Zle_Qle. apply rint_mono. nra. }
  apply Qle_shift_div_l; [exact Hs |].
  assert (Heq : inject_Z (rint (x * s)) / s * s == inject_Z (rint (x * s))).
  { field. lra. }
  rewrite Heq. exact Hr.
Qed.

Lemma clip_lower_mono : forall lower x y : Q,
  x <= y -> clip_lower lower x <= clip_lower lower y.
Proof.
  intros lower x y Hxy.
  destruct (clip_lower_spec lower x) as [Hxl Hxg].
  destruct (clip_lower_spec lower y) as [Hyl Hyg].
  destruct (Qlt_le_dec x lower) as [Hx | Hx];
    destruct (Qlt_le_dec y lower) as [Hy | Hy].
  - rewrite (Hxl Hx), (Hyl Hy). lra.
  - rewrite (Hxl Hx), (Hyg Hy). exact Hy.
  - lra.
  - rewrite (Hxg Hx), (Hyg Hy). exact Hxy.
Qed.

Lemma predict_at_mono : forall (model : LinearRegression) (i j : Z),
  (i <= j)%Z ->
  (0 <= coef_ model -> predict_at model i <= predict_at model j)
  /\ (coef_ model <= 0 -> predict_at model j <= predict_at model i).
Proof.
  intros model i j Hij. unfold predict_at.
  assert (Hq : inject_Z i <= inject_Z j) by now rewrite <- Zle_Qle.
  split; intros Hc; nra.
Qed.

(** X7.  The forecast moves with the fitted trend: when the slope is not
    negative the forecast values never decrease from one day to a later
    one, and when the slope is not positive they never increase (after
    clipping and rounding). *)
Theorem forecast_follows_trend : forall (series : list (Z * Q)) (horizon_days : Z),
  series <> [] -> (1 <= horizon_days)%Z ->
  exists (model : LinearRegression) (fc : list (Z * Q)),
    fitted (map snd series) = Ok model
    /\ forecast series horizon_days = Ok fc
    /\ (0 <= coef_ model ->
        forall (i j : nat) (u v : Q),
          (i <= j)%nat ->
          nth_error (map snd fc) i = Some u ->
          nth_error (map snd fc) j = Some v -> u <= v)
    /\ (coef_ model <= 0 ->
        forall (i j : nat) (u v : Q),
          (i <= j)%nat ->
          nth_error (map snd fc) i = Some u ->
          nth_error (map snd fc) j = Some v -> v <= u).
Proof.
  intros [| p s] h Hne Hh; [congruence |].
  destruct (forecast_shape p s h Hh) as [model [Hfit Hfc]].
  exists model. eexists. split; [exact Hfit |]. split; [exact Hfc |].
  assert (Hnth : forall (i : nat) (u : Q),
            nth_error (map snd (map (fun k =>
               ((last (map fst (p :: s)) 0%Z + 1 + Z.of_nat k)%Z,
                round 2 (clip_lower 0
                  (predict_at model
                     (Z.of_nat (List.length (p :: s)) + Z.of_nat k)))))
               (seq 0 (Z.to_nat h)))) i = Some u ->
            u = round 2 (clip_lower 0
                  (predict_at model
                     (Z.of_nat (List.length (p :: s)) + Z.of_nat i)))).
  { intros i u Hu. rewrite map_map in Hu.
    destruct (Nat.lt_ge_cases i (Z.to_nat h)) as [Hlt | Hge].
    - rewrite nth_error_map_seq in Hu by exact Hlt. cbn [snd] in Hu. congruence.
    - assert (Hnone : nth_error
                (map (fun k => snd
                   ((last (map fst (p :: s)) 0%Z + 1 + Z.of_nat k)%Z,
                    round 2 (clip_lower 0
                      (predict_at model
                         (Z.of_nat (List.length (p :: s)) + Z.of_nat k)))))
                   (seq 0 (Z.to_nat h))) i = None).
      { apply nth_error_None. rewrite length_map, length_seq. exact Hge. }
      congruence. }
  split; intros Hc i j u v Hij Hu Hv;
    apply Hnth in Hu; apply Hnth in Hv; subst u v;
    apply round_mono, clip_lower_mono;
    apply (predict_at_mono model
             (Z.of_nat (List.length (p :: s)) + Z.of_nat i)
             (Z.of_nat (List.length (p :: s)) + Z.of_nat j)); try exact Hc; lia.
Qed.

Lemma forecast_follows_trend_witness :
  exists (model : LinearRegression) (fc : list (Z * Q)),
    fitted (map snd [(19723%Z, 10); (19724%Z, 7); (19725%Z, 9)]) = Ok model
    /\ forecast [(19723%Z, 10); (19724%Z, 7); (19725%Z, 9)] 7 = Ok fc
    /\ (0 <= coef_ model ->
        forall (i j : nat) (u v : Q),
          (i <= j)%nat ->
          nth_error (map snd fc) i = Some u ->
          nth_error (map snd fc) j = Some v -> u <= v)
    /\ (coef_ model <= 0 ->
        forall (i j : nat) (u v : Q),
          (i <= j)%nat ->
          nth_error (map snd fc) i = Some u ->
          nth_error (map snd fc) j = Some v -> v <= u).
Proof.
  apply (forecast_follows_trend [(19723%Z, 10); (19724%Z, 7); (19725%Z, 9)] 7).
  - discriminate.
  - lia.
Defined.

(** ** The forecast continues the daily grid *)

Lemma day_range_cons : forall (start : Z) (n : nat),
  day_range start (S n) = start :: day_range (start + 1) n.
Proof.
  intros start n. unfold day_range. simpl seq. simpl map.
  f_equal; [lia |].
  rewrite <- seq_shift, map_map. apply map_ext. intros k. lia.
Qed.

Lemma day_range_app : forall (n m : nat) (start : Z),
  day_range start (n + m)
  = day_range start n ++ day_range (start + Z.of_nat n) m.
Proof.
  intros n m. induction n as [| n IH]; intros start.
  - simpl. now replace (start + 0)%Z with start by lia.
  - change (S n + m)%nat with (S (n + m)).
    rewrite !day_range_cons, IH. simpl. do 3 f_equal. lia.
Qed.

Lemma day_range_last : forall (n : nat) (start d : Z),
  last (day_range start (S n)) d = (start + Z.of_nat n)%Z.
Proof.
  intros n. induction n as [| n IH]; intros start d.
  - simpl. lia.
  - rewrite day_range_cons.
    change (last (start :: day_range (start + 1) (S n)) d)
      with (last (day_range (start + 1) (S n)) d).
    rewrite IH. lia.
Qed.

(** X8.  The forecast continues the calendar of the daily series: the
    dates of the daily series of a table followed by the dates of its
    forecast are the consecutive days from the first transaction date to
    [horizon_days] days after the last one. *)
Theorem forecast_continues_daily_grid :
  forall (df : list Row) (lo hi horizon_days : Z),
  min_date df = Some lo -> max_date df = Some hi -> (1 <= horizon_days)%Z ->
  exists fc : list (Z * Q),
    forecast (daily_sales df) horizon_days = Ok fc
    /\ map fst (daily_sales df) ++ map fst fc
       = day_range lo (Z.to_nat (hi - lo + 1 + horizon_days)).
Proof.
  intros df lo hi h Hlo Hhi Hh.
  destruct (daily_length Q Qsum TotalSale df lo hi Hlo Hhi) as [Hle Hlen].
  pose proof (daily_dates Q Qsum TotalSale df lo hi Hlo Hhi) as Hdates.
  fold (daily_sales df) in Hlen, Hdates.
  destruct (daily_sales df) as [| p s] eqn:Hseries.
  - simpl in Hlen. lia.
  - destruct (forecast_shape p s h Hh) as [model [_ Hfc]].
    eexists. split; [exact Hfc |].
    rewrite (map_map _ fst). cbn [fst].
    rewrite Hdates.
    replace (Z.to_nat (hi - lo + 1 + h))
      with (Z.to_nat (hi - lo + 1) + Z.to_nat h)%nat by lia.
    rewrite day_range_app. f_equal.
    destruct (Z.to_nat (hi - lo + 1)) as [| n] eqn:Hn; [lia |].
    rewrite day_range_last. unfold day_range.
    apply map_ext. intros k. lia.
Qed.

Lemma forecast_continues_daily_grid_witness :
  exists fc : list (Z * Q),
    forecast (daily_sales [mkRow (19723 * ns_per_day) 3 5 "UK" "mug";
                           mkRow (19725 * ns_per_day) 4 5 "UK" "cup"]) 7 = Ok fc
    /\ map fst (daily_sales [mkRow (19723 * ns_per_day) 3 5 "UK" "mug";
                             mkRow (19725 * ns_per_day) 4 5 "UK" "cup"])
       ++ map fst fc
       = day_range 19723 (Z.to_nat (19725 - 19723 + 1 + 7)).
Proof.
  apply (forecast_continues_daily_grid
           [mkRow (19723 * ns_per_day) 3 5 "UK" "mug";
            mkRow (19725 * ns_per_day) 4 5 "UK" "cup"] 19723 19725 7).
  - reflexivity.
  - reflexivity.
  - lia.
Defined.

(** ** The country selector and the whole script *)

Local Open Scope Z_scope.

Lemma countries_In : forall (df : list Row) (c : string),
  In c (countries df) <-> exists r, In r df /\ Country r = c.
Proof.
  intros df c. unfold countries. split.
  - intros Hin.
    apply (Permutation_in _ (Permutation_sym (StringSort.Permuted_sort _))) in Hin.
    apply nodup_In, in_map_iff in Hin. destruct Hin as [r [Hc Hr]].
    now exists r.
  - intros [r [Hr Hc]].
    apply (Permutation_in _ (StringSort.Permuted_sort _)).
    apply nodup_In, in_map_iff. now exists r.
Qed.




(** X9.  The option list of the country selector holds every country of
    the cleaned table exactly once and nothing else, in ascending order. *)
Theorem countries_listed_once : forall df : list Row,
  NoDup (countries df)
  /\ (forall c : string,
        In c (countries df) <-> exists r, In r df /\ Country r = c)
  /\ Sorted (fun a b => String.leb a b = true) (countries df).
Proof.
  intros df. split; [| split].
  - unfold countries. eapply Permutation_NoDup.
    + apply StringSort.Permuted_sort.
    + apply NoDup_nodup.
  - apply countries_In.
  - unfold countries. apply StringSort.Sorted_sort.
Qed.





Local Open Scope Q_scope.

(** ** Cleaning and country scoping *)

Lemma row_of_raw_some : forall (r : RawRow) (row : Row),
  row_of_raw r = Some row <->
  exists other,
    r = mkRawRow (Some (InvoiceDate row)) (Some (Quantity row))
                 (Some (UnitPrice row)) (Some (Country row))
                 (Some (Description row)) other
    /\ forallb notna other = true.
Proof.
  intros [t q p c d other] row. unfold row_of_raw. simpl. split.
  - destruct t, q, p, c, d; try discriminate.
    destruct (forallb notna other) eqn:Hother; [| discriminate].
    intros Heq. injection Heq as <-. simpl. now exists other.
  - intros [other' [Heq Hother]]. injection Heq as -> -> -> -> -> ->.
    rewrite Hother. now destruct row.
Qed.

(** X16.  Cleaning keeps exactly the lines without a missing cell, as they
    are: a line is in the cleaned table if and only if the upload has a
    line with these five values and every cell of every other column
    present; the cleaned table is never longer than the upload. *)
Theorem dropna_keeps_complete_rows : forall (upload : list RawRow) (row : Row),
  (In row (dropna upload) <->
   exists other,
     In (mkRawRow (Some (InvoiceDate row)) (Some (Quantity row))
                  (Some (UnitPrice row)) (Some (Country row))
                  (Some (Description row)) other) upload
     /\ forallb notna other = true)
  /\ (List.length (dropna upload) <= List.length upload)%nat.
Proof.
  intros upload row. split.
  - induction upload as [| r upload IH]; simpl.
    + split; [intros [] | intros [other [[] _]]].
    + destruct (row_of_raw r) as [row' |] eqn:Hr.
      * simpl. rewrite IH. split.
        -- intros [<- | [other [Hin Hother]]].
           ++ apply row_of_raw_some in Hr. destruct Hr as [other [-> Hother]].
              exists other. split; [now left | exact Hother].
           ++ exists other. split; [now right | exact Hother].
        -- intros [other [[Heq | Hin] Hother]].
           ++ left. subst r.
              assert (Hsome : row_of_raw
                        (mkRawRow (Some (InvoiceDate row)) (Some (Quantity row))
                                  (Some (UnitPrice row)) (Some (Country row))
                                  (Some (Description row)) other) = Some row).
              { apply row_of_raw_some. now exists other. }
              congruence.
           ++ right. now exists other.
      * rewrite IH. split.
        -- intros [other [Hin Hother]]. exists other. split; [now right | exact Hother].
        -- intros [other [[Heq | Hin] Hother]].
           ++ subst r.
              assert (Hsome : row_of_raw
                        (mkRawRow (Some (InvoiceDate row)) (Some (Quantity row))
                                  (Some (UnitPrice row)) (Some (Country row))
                                  (Some (Description row)) other) = Some row).
              { apply row_of_raw_some. now exists other. }
              congruence.
           ++ now exists other.
  - induction upload as [| r upload IH]; simpl; [lia |].
    destruct (row_of_raw r); simpl; lia.
Qed.

(** X18.  When the table has no more than [n] distinct descriptions, the
    ranking of length [n] lists every one of them. *)
Theorem short_table_fully_ranked : forall (n : nat) (df : list Row) (desc : string),
  (distinct_descriptions df <= n)%nat ->
  In desc (map Description df) ->
  exists revenue : Q, In (desc, revenue) (top_products n df).
Proof.
  intros n df desc Hn Hdesc. unfold top_products.
  rewrite firstn_all2 by (now rewrite product_sales_length).
  assert (Hin : In desc (map fst (product_sales df))).
  { apply (Permutation_in _ (Permutation_sym (product_sales_descriptions df))).
    now apply nodup_In. }
  apply in_map_iff in Hin. destruct Hin as [[d v] [Hd Hv]].
  simpl in Hd. subst d. now exists v.
Qed.

Lemma short_table_fully_ranked_witness :
  exists revenue : Q,
    In ("pen"%string, revenue)
       (top_products 5 [mkRow 0 1 10 "UK" "pen"; mkRow 0 1 15 "UK" "cup";
                        mkRow 0 2 10 "UK" "pen"]).
Proof.
  apply (short_table_fully_ranked 5
           [mkRow 0 1 10 "UK" "pen"; mkRow 0 1 15 "UK" "cup";
            mkRow 0 2 10 "UK" "pen"] "pen").
  - vm_compute. lia.
  - simpl. left. reflexivity.
Defined.
